(** * smart-repo-init: the project initialiser scripts, embedded and verified

    The scripts of [scripts/] are sequential orchestration of external
    processes ([git], [which]), operator prompts and template files.  The
    embedding below keeps that shape: Python [str] values are [string]s,
    the templates directory and the git remote table are finite maps, and
    every effect (console output, operator input, subprocesses, sleeping,
    the project directory) is threaded through one state-and-exception
    monad that also records the events of the run. *)

From Stdlib Require Import String Ascii ZArith List Bool Lia DecimalString.
From stdpp Require Import gmap strings list fin_maps.
Import ListNotations.

Local Open Scope string_scope.
Local Open Scope Z_scope.
Local Open Scope list_scope.

(** ** Python [str] primitives *)

Module PyStr.

(** The newline and the double quote, which a literal cannot spell. *)
Definition nl : string := String (ascii_of_nat 10) EmptyString.
Definition dq : string := String (ascii_of_nat 34) EmptyString.

(** [str.lower] on one code point of the ASCII range. *)
Definition lower_char (c : ascii) : ascii :=
  let n := nat_of_ascii c in
  if (Nat.leb 65 n && Nat.leb n 90)%bool then ascii_of_nat (n + 32) else c.

(** [s.lower()] *)
Fixpoint lower (s : string) : string :=
  match s with
  | EmptyString => EmptyString
  | String c t => String (lower_char c) (lower t)
  end.

(** [c.isspace()] on the ASCII range: TAB, LF, VT, FF, CR, FS, GS, RS, US
    and the space. *)
Definition isspace (c : ascii) : bool :=
  let n := nat_of_ascii c in
  ((Nat.leb 9 n && Nat.leb n 13) || (Nat.leb 28 n && Nat.leb n 32))%bool.

(** [s.lstrip()] *)
Fixpoint lstrip (s : string) : string :=
  match s with
  | EmptyString => EmptyString
  | String c t => if isspace c then lstrip t else s
  end.

(** [s.rstrip()]: a suffix made of white space only is dropped. *)
Fixpoint rstrip (s : string) : string :=
  match s with
  | EmptyString => EmptyString
  | String c t =>
      match rstrip t with
      | EmptyString => if isspace c then EmptyString else String c EmptyString
      | t' => String c t'
      end
  end.

(** [s.strip()] *)
Definition strip (s : string) : string := rstrip (lstrip s).

(** [s.startswith(p)] *)
Fixpoint startswith (p s : string) : bool :=
  match p, s with
  | EmptyString, _ => true
  | String _ _, EmptyString => false
  | String a p', String b s' => (Ascii.eqb a b && startswith p' s')%bool
  end.

(** [sub in s] *)
Fixpoint contains (sub s : string) : bool :=
  (startswith sub s ||
   match s with
   | EmptyString => false
   | String _ t => contains sub t
   end)%bool.

(** [s[n:]] *)
Fixpoint drop (n : nat) (s : string) : string :=
  match n, s with
  | O, _ => s
  | S _, EmptyString => EmptyString
  | S k, String _ t => drop k t
  end.

(** [s.replace(old, new)] for a non-empty [old]: the text is scanned from
    the left; where [old] starts, [new] is emitted and the scan resumes
    after the match, so matches never overlap.  [skip] counts the
    characters of the current match that are still to be passed over. *)
Fixpoint replace_from (old new : string) (skip : nat) (s : string) : string :=
  match s with
  | EmptyString => EmptyString
  | String c t =>
      match skip with
      | S k => replace_from old new k t
      | O =>
          if startswith old s
          then new +:+ replace_from old new (Nat.pred (String.length old)) t
          else String c (replace_from old new O t)
      end
  end.

(** With an empty [old] Python puts [new] before every character and at
    the end. *)
Fixpoint intersperse (new s : string) : string :=
  match s with
  | EmptyString => new
  | String c t => new +:+ String c (intersperse new t)
  end.

Definition replace (s old new : string) : string :=
  match old with
  | EmptyString => intersperse new s
  | String _ _ => replace_from old new O s
  end.

(** Truthiness of a string: [if s:] *)
Definition truthy (s : string) : bool :=
  match s with EmptyString => false | String _ _ => true end.

End PyStr.

(** ** The outside world

    What a run can observe and change: the lines the operator will type,
    the templates directory, the project directory, git's remote table,
    the network (the outcome of each successive [git push]) and the
    outcome of every other external command. *)

(** [subprocess.CompletedProcess] *)
Record CompletedProcess := mkCP {
  returncode : Z;
  stdout : string;
  stderr : string }.

(** The exceptions these scripts can meet. *)
Inductive Exn :=
| SystemExit (code : Z)
| CalledProcessError (cmd : list string) (rc : Z) (err : string)
| EOFError
| IndexError
| FileNotFoundError (path : string)
| NotADirectoryError (path : string)
| IsADirectoryError (path : string)
| FileExistsError (path : string).

(** What a run does that can be observed from outside. *)
Inductive Event :=
| EvPrint (text : string)
| EvStatus (text : string)
| EvInput (prompt : string) (answer : option string)
| EvRun (cmd : list string) (result : CompletedProcess)
| EvSleep (seconds : Z).

(** An entry of the project directory; modes are the permission bits. *)
Inductive Node :=
| Dir
| File (content : string) (mode : Z).

Record World := mkWorld {
  stdin : list string;
  templates : gmap string string;
  fs : gmap string Node;
  remotes : gmap string string;
  pushes : list CompletedProcess;
  oracle : list string -> CompletedProcess }.

Definition set_stdin (l : list string) (w : World) : World :=
  mkWorld l (templates w) (fs w) (remotes w) (pushes w) (oracle w).
Definition set_fs (f : gmap string Node) (w : World) : World :=
  mkWorld (stdin w) (templates w) f (remotes w) (pushes w) (oracle w).
Definition set_remotes (r : gmap string string) (w : World) : World :=
  mkWorld (stdin w) (templates w) (fs w) r (pushes w) (oracle w).
Definition set_pushes (p : list CompletedProcess) (w : World) : World :=
  mkWorld (stdin w) (templates w) (fs w) (remotes w) p (oracle w).
Definition set_templates (t : gmap string string) (w : World) : World :=
  mkWorld (stdin w) t (fs w) (remotes w) (pushes w) (oracle w).

(** [args_after pre cmd]: the arguments of [cmd] after the words [pre]. *)
Fixpoint args_after (pre cmd : list string) : option (list string) :=
  match pre, cmd with
  | [], _ => Some cmd
  | _ :: _, [] => None
  | p :: pre', c :: cmd' =>
      if String.eqb p c then args_after pre' cmd' else None
  end.

(** A push that finds the network down. *)
Definition push_down : CompletedProcess :=
  mkCP 128 "" "fatal: unable to access the remote".

(** The external programs.  [git remote get-url] reads the remote table,
    [git remote add] extends it when the name is free and the command
    goes through, [git push] takes the next outcome of the network (down
    for good once the list is used up), [git init] creates [.git]; every
    other command only has the outcome the oracle gives it. *)
Definition external (cmd : list string) (w : World) : CompletedProcess * World :=
  match args_after ["git"; "remote"; "get-url"] cmd with
  | Some [name] =>
      match remotes w !! name with
      | Some url => (mkCP 0 (url +:+ PyStr.nl) "", w)
      | None => (mkCP 2 "" ("error: No such remote '" +:+ name +:+ "'"), w)
      end
  | _ =>
  match args_after ["git"; "remote"; "add"] cmd with
  | Some [name; url] =>
      match remotes w !! name with
      | Some _ => (mkCP 3 "" ("error: remote " +:+ name +:+ " already exists."), w)
      | None =>
          let cp := oracle w cmd in
          if returncode cp =? 0
          then (cp, set_remotes (<[name := url]> (remotes w)) w)
          else (cp, w)
      end
  | _ =>
  match args_after ["git"; "push"] cmd with
  | Some _ =>
      match pushes w with
      | cp :: rest => (cp, set_pushes rest w)
      | [] => (push_down, w)
      end
  | None =>
  match args_after ["git"; "init"] cmd with
  | Some [] =>
      let cp := oracle w cmd in
      if returncode cp =? 0
      then (cp, match fs w !! ".git" with
                | Some _ => w
                | None => set_fs (<[".git" := Dir]> (fs w)) w
                end)
      else (cp, w)
  | _ => (oracle w cmd, w)
  end end end end.

(** ** The monad of a run *)

Inductive Outcome (A : Type) :=
| Ok (a : A)
| Raise (e : Exn).
Arguments Ok {A} a.
Arguments Raise {A} e.

Record Run (A : Type) := mkRun {
  res : Outcome A;
  world : World;
  trace : list Event }.
Arguments mkRun {A} res world trace.
Arguments res {A} r.
Arguments world {A} r.
Arguments trace {A} r.

Definition M (A : Type) : Type := World -> Run A.

Definition ret {A} (a : A) : M A := fun w => mkRun (Ok a) w [].

(** [prepend t r]: the run [r] after the events [t]. *)
Definition prepend {A} (t : list Event) (r : Run A) : Run A :=
  match r with
  | mkRun x w t' => mkRun x w (t ++ t')
  end.

Definition bind {A B} (m : M A) (f : A -> M B) : M B := fun w =>
  match m w with
  | mkRun (Ok a) w1 t1 => prepend t1 (f a w1)
  | mkRun (Raise e) w1 t1 => mkRun (Raise e) w1 t1
  end.

Definition raise {A} (e : Exn) : M A := fun w => mkRun (Raise e) w [].

Declare Scope run_scope.
Delimit Scope run_scope with run.
Notation "x <- m ;; k" := (bind m (fun x => k))
  (at level 100, m at next level, right associativity) : run_scope.
Notation "m ;; k" := (bind m (fun _ => k))
  (at level 100, right associativity) : run_scope.
Local Open Scope run_scope.

(** [try: m  except subprocess.CalledProcessError: handler] *)
Definition try_except_cpe {A} (m : M A)
    (handler : list string -> Z -> string -> M A) : M A := fun w =>
  match m w with
  | mkRun (Raise (CalledProcessError cmd rc err)) w1 t1 =>
      prepend t1 (handler cmd rc err w1)
  | r => r
  end.

(** How a [for] body ends: it falls through to the next round, or the
    enclosing function returns. *)
Inductive Flow := Continue | Return.

(** [for x in xs: body] with [return] allowed in the body. *)
Fixpoint for_each {X} (xs : list X) (body : X -> M Flow) : M Flow :=
  match xs with
  | [] => ret Continue
  | x :: rest =>
      fl <- body x ;;
      match fl with
      | Return => ret Return
      | Continue => for_each rest body
      end
  end.

(** [range(n)] *)
Definition range (n : nat) : list nat := seq 0 n.

(** ** Python and operating-system primitives *)

Definition print (text : string) : M unit := fun w =>
  mkRun (Ok tt) w [EvPrint text].

(** [input(prompt)]: the next line the operator types, [EOFError] at the
    end of the input. *)
Definition input (prompt : string) : M string := fun w =>
  match stdin w with
  | line :: rest => mkRun (Ok line) (set_stdin rest w) [EvInput prompt (Some line)]
  | [] => mkRun (Raise EOFError) w [EvInput prompt None]
  end.

(** [time.sleep(seconds)] *)
Definition sleep (seconds : Z) : M unit := fun w =>
  mkRun (Ok tt) w [EvSleep seconds].

(** [sys.exit(code)] *)
Definition sys_exit {A} (code : Z) : M A := raise (SystemExit code).

(** [subprocess.run(cmd, capture_output=True, text=True, check=check)] *)
Definition subprocess_run (cmd : list string) (check : bool) : M CompletedProcess :=
  fun w =>
    let '(cp, w1) := external cmd w in
    if (check && negb (returncode cp =? 0))%bool
    then mkRun (Raise (CalledProcessError cmd (returncode cp) (stderr cp))) w1 [EvRun cmd cp]
    else mkRun (Ok cp) w1 [EvRun cmd cp].

(** [" ".join(words)] *)
Fixpoint join_words (words : list string) : string :=
  match words with
  | [] => ""
  | [x] => x
  | x :: rest => x +:+ " " +:+ join_words rest
  end.

(** [str(n)] *)
Definition str_of_nat (n : nat) : string :=
  NilZero.string_of_uint (Nat.to_uint n).
Definition str_of_Z (z : Z) : string :=
  NilZero.string_of_int (Z.to_int z).

(** [s * n] *)
Fixpoint repeat_str (s : string) (n : nat) : string :=
  match n with
  | O => ""
  | S k => s +:+ repeat_str s k
  end.

(** The parent of a path below the project root; [""] is the root. *)
Fixpoint dirname (p : string) : string :=
  match p with
  | EmptyString => EmptyString
  | String c t => if PyStr.contains "/" t then String c (dirname t) else EmptyString
  end.

(** The last component of a path: [Path.name]. *)
Fixpoint basename (p : string) : string :=
  match p with
  | EmptyString => EmptyString
  | String c t => if PyStr.contains "/" t then basename t
                  else if Ascii.eqb c "/" then t else p
  end.

(** [(project / p).exists()] *)
Definition path_exists (p : string) : M bool := fun w =>
  mkRun (Ok (bool_decide (is_Some (fs w !! p)))) w [].

(** The check every operation on [p] starts with: the parent of [p] is a
    directory. *)
Definition parent_error (p : string) (w : World) : option Exn :=
  match dirname p with
  | EmptyString => None
  | d => match fs w !! d with
         | Some Dir => None
         | Some (File _ _) => Some (NotADirectoryError p)
         | None => Some (FileNotFoundError p)
         end
  end.

(** [(project / p).write_text(content)]; a new file gets mode 0o644. *)
Definition write_text (p content : string) : M unit := fun w =>
  match parent_error p w with
  | Some e => mkRun (Raise e) w []
  | None =>
      match fs w !! p with
      | Some Dir => mkRun (Raise (IsADirectoryError p)) w []
      | Some (File _ mode) => mkRun (Ok tt) (set_fs (<[p := File content mode]> (fs w)) w) []
      | None => mkRun (Ok tt) (set_fs (<[p := File content 420]> (fs w)) w) []
      end
  end.

(** [(project / p).mkdir(exist_ok=True)] *)
Definition mkdir_exist_ok (p : string) : M unit := fun w =>
  match fs w !! p with
  | Some Dir => mkRun (Ok tt) w []
  | Some (File _ _) => mkRun (Raise (FileExistsError p)) w []
  | None =>
      match parent_error p w with
      | Some e => mkRun (Raise e) w []
      | None => mkRun (Ok tt) (set_fs (<[p := Dir]> (fs w)) w) []
      end
  end.

(** [(project / p).chmod(mode)] *)
Definition chmod (p : string) (mode : Z) : M unit := fun w =>
  match fs w !! p with
  | Some Dir => mkRun (Ok tt) w []
  | Some (File content _) => mkRun (Ok tt) (set_fs (<[p := File content mode]> (fs w)) w) []
  | None => mkRun (Raise (FileNotFoundError p)) w []
  end.

(** [[f for f in project.iterdir() if not f.name.startswith('.')]]: the
    entries directly below the project root whose name has no leading dot. *)
Definition visible_names (f : gmap string Node) : list string :=
  List.filter
    (fun p => negb (PyStr.contains "/" p) && negb (PyStr.startswith "." p))%bool
    (map fst (map_to_list f)).

Definition visible_entries : M (list string) := fun w =>
  mkRun (Ok (visible_names (fs w))) w [].

(** [(templates_dir / name).exists()] *)
Definition template_exists (name : string) : M bool := fun w =>
  mkRun (Ok (bool_decide (is_Some (templates w !! name)))) w [].

(** [(templates_dir / name).read_text()] *)
Definition template_read_text (name : string) : M string := fun w =>
  match templates w !! name with
  | Some text => mkRun (Ok text) w []
  | None => mkRun (Raise (FileNotFoundError name)) w []
  end.

(** [(templates_dir / name).write_text(content)] *)
Definition template_write_text (name content : string) : M unit := fun w =>
  mkRun (Ok tt) (set_templates (<[name := content]> (templates w)) w) [].

(** ** [scripts/quick_init_project.py] *)

Module Quick.

(** [run]: run a command and optionally exit on failure. *)
Definition run (cmd : list string) (check : bool) : M CompletedProcess :=
  result <- subprocess_run cmd false ;;
  if (check && negb (returncode result =? 0))%bool then
    print ("❌ Error: " +:+ stderr result) ;;
    sys_exit 1
  else ret result.

(** [check_coderabbit] *)
Definition check_coderabbit : M bool :=
  result <- run ["which"; "coderabbit"] false ;;
  ret (returncode result =? 0).

(** [print_install_instructions] *)
Definition print_install_instructions : M unit :=
  print (PyStr.nl +:+ repeat_str "=" 60) ;;
  print "📦 CodeRabbit CLI Installation" ;;
  print (repeat_str "=" 60) ;;
  print "
Run this command:" ;;
  print "
  curl -fsSL https://cli.coderabbit.ai/install.sh | sh" ;;
  print "
Then configure it:" ;;
  print "  coderabbit configure" ;;
  print (PyStr.nl +:+ repeat_str "=" 60).

(** [load_template]: the text of the template, [None] when it is missing. *)
Definition load_template (template_name : string) : M (option string) :=
  ex <- template_exists template_name ;;
  if ex then
    text <- template_read_text template_name ;;
    ret (Some text)
  else ret None.

(** Truthiness of what [load_template] returns: [None] and the empty
    text are both false. *)
Definition loaded (content : option string) : bool :=
  match content with
  | Some text => PyStr.truthy text
  | None => false
  end.

Definition text_of (content : option string) : string :=
  match content with
  | Some text => text
  | None => ""
  end.

Definition minimal_gitignore : string :=
  PyStr.strip "
__pycache__/
*.py[cod]
.venv/
venv/
.env
.DS_Store
.idea/
.vscode/
".

Definition minimal_coderabbit : string :=
  PyStr.strip "
language: en
reviews:
  auto_review: true
  request_changes_workflow: true
".

Definition how_it_works : string :=
  ("
When you commit:
  1. git commit -m " +:+ PyStr.dq +:+ "message" +:+ PyStr.dq +:+ "
  2. Pre-commit hook runs automatically
  3. CodeRabbit reviews your changes
  4. If issues found → commit blocked
  5. If all good → commit proceeds

To skip the hook (not recommended):
  git commit --no-verify -m " +:+ PyStr.dq +:+ "message" +:+ PyStr.dq +:+ "

Next steps:
  • Customize .coderabbit.yaml for your needs
  • Start coding!
").

Definition max_retries : nat := 4.
Definition retry_delays : list Z := [2; 4; 8; 16].

(** The tail of [setup_remote_and_push], from [# Push to remote with
    retry logic] on: both branches of the remote check end here. *)
Definition push_with_retry : M unit :=
  print "
📤 Pushing to remote..." ;;
  for_each (range max_retries) (fun attempt =>
    result <- run ["git"; "push"; "-u"; "origin"; "main"] false ;;
    if returncode result =? 0 then
      print "✅ Successfully pushed to remote!" ;;
      ret Return
    else
      if (attempt <? max_retries - 1)%nat then
        match retry_delays !! attempt with
        | None => raise IndexError
        | Some delay =>
            print ("   ⚠️  Push failed (attempt " +:+ str_of_nat (attempt + 1)
                   +:+ "/" +:+ str_of_nat max_retries +:+ "), retrying in "
                   +:+ str_of_Z delay +:+ "s...") ;;
            sleep delay ;;
            ret Continue
        end
      else
        print ("   ❌ Failed to push after " +:+ str_of_nat max_retries +:+ " attempts") ;;
        print ("   Error: " +:+ stderr result) ;;
        print "
   You can push manually later with:" ;;
        print "   git push -u origin main" ;;
        ret Return) ;;
  ret tt.

(** [setup_remote_and_push] *)
Definition setup_remote_and_push : M unit :=
  print "
🌐 Setting up remote repository..." ;;
  result <- run ["git"; "remote"; "get-url"; "origin"] false ;;
  if returncode result =? 0 then
    let remote_url := PyStr.strip (stdout result) in
    print ("✅ Remote 'origin' already exists: " +:+ remote_url) ;;
    answer <- input "   Push to this remote? (y/n): " ;;
    let push_to_existing := PyStr.lower answer in
    if negb (String.eqb push_to_existing "y") then
      print "   Skipping push to remote."
    else push_with_retry
  else
    print "📡 No remote repository configured." ;;
    answer <- input "   Add a remote repository? (y/n): " ;;
    let add_remote := PyStr.lower answer in
    if negb (String.eqb add_remote "y") then
      print "   Skipping remote setup. You can add it later with:" ;;
      print "   git remote add origin <url>" ;;
      print "   git push -u origin main"
    else
      line <- input "   Enter remote repository URL (e.g., git@github.com:user/repo.git): " ;;
      let remote_url := PyStr.strip line in
      if negb (PyStr.truthy remote_url) then
        print "   No URL provided, skipping remote setup."
      else
        print ("   Adding remote 'origin': " +:+ remote_url) ;;
        result <- run ["git"; "remote"; "add"; "origin"; remote_url] false ;;
        if negb (returncode result =? 0) then
          print "   ❌ Failed to add remote"
        else
          print "   ✅ Remote added successfully" ;;
          push_with_retry.

Definition minimal_hook : string :=
  ("#!/bin/sh
echo " +:+ PyStr.dq +:+ "🐰 Running CodeRabbit review..." +:+ PyStr.dq +:+ "
if ! command -v coderabbit &> /dev/null; then
    echo " +:+ PyStr.dq +:+ "⚠️  CodeRabbit CLI not found!" +:+ PyStr.dq +:+ "
    echo " +:+ PyStr.dq +:+ "Install: curl -fsSL https://cli.coderabbit.ai/install.sh | sh" +:+ PyStr.dq +:+ "
    exit 0
fi
coderabbit review || exit 1
").

(** [main] *)
Definition main : M unit :=
  files <- visible_entries ;;
  (if negb (bool_decide (files = [])) then
     print "⚠️  Folder not empty!" ;;
     answer <- input "Continue? (y/n): " ;;
     if negb (String.eqb (PyStr.lower answer) "y") then sys_exit 0 else ret tt
   else ret tt) ;;
  print "🚀 Initializing project...
" ;;
  has_git <- path_exists ".git" ;;
  (if negb has_git then
     run ["git"; "init"] true ;;
     run ["git"; "branch"; "-M"; "main"] true ;;
     print "✅ Git initialized"
   else ret tt) ;;
  gitignore_content <- load_template "gitignore.python" ;;
  (if loaded gitignore_content then
     write_text ".gitignore" (text_of gitignore_content) ;;
     print "✅ .gitignore created from template"
   else
     write_text ".gitignore" minimal_gitignore ;;
     print "✅ .gitignore created (minimal)") ;;
  gitattributes_content <- load_template "gitattributes" ;;
  (if loaded gitattributes_content then
     write_text ".gitattributes" (text_of gitattributes_content) ;;
     print "✅ .gitattributes created from template"
   else
     write_text ".gitattributes" ("* text=auto eol=lf" +:+ PyStr.nl) ;;
     print "✅ .gitattributes created (minimal)") ;;
  coderabbit_content <- load_template "coderabbit.yaml" ;;
  (if loaded coderabbit_content then
     write_text ".coderabbit.yaml" (text_of coderabbit_content) ;;
     print "✅ CodeRabbit config created from template"
   else
     write_text ".coderabbit.yaml" minimal_coderabbit ;;
     print "✅ CodeRabbit config created (minimal)") ;;
  coderabbit_installed <- check_coderabbit ;;
  (if negb coderabbit_installed then
     print "⚠️  CodeRabbit CLI not installed"
   else
     print "✅ CodeRabbit CLI is installed") ;;
  mkdir_exist_ok ".git/hooks" ;;
  hook_content <- load_template "pre-commit" ;;
  (if loaded hook_content then
     write_text ".git/hooks/pre-commit" (text_of hook_content) ;;
     print "✅ Pre-commit hook created from template"
   else
     write_text ".git/hooks/pre-commit" minimal_hook ;;
     print "✅ Pre-commit hook created (minimal)") ;;
  chmod ".git/hooks/pre-commit" 493 ;;
  git_user <- run ["git"; "config"; "user.name"] false ;;
  git_email <- run ["git"; "config"; "user.email"] false ;;
  (if ((returncode git_user =? 0) && (returncode git_email =? 0))%bool then
    run ["git"; "add"; "."] true ;;
    run ["git"; "commit"; "--no-verify"; "-m";
         "Initial commit: Project setup with CodeRabbit CLI"] true ;;
    print "✅ Initial commit done (pre-commit hook skipped for setup)" ;;
    setup_remote_and_push
   else
     print "⚠️  Git user not configured - skipping initial commit" ;;
     print "   Set with: git config --global user.name 'Your Name'" ;;
     print "             git config --global user.email 'you@example.com'") ;;
  print "
🎉 Done!
" ;;
  (if negb coderabbit_installed then print_install_instructions else ret tt) ;;
  print (PyStr.nl +:+ repeat_str "=" 60) ;;
  print "🐰 How It Works" ;;
  print (repeat_str "=" 60) ;;
  print how_it_works ;;
  print (repeat_str "=" 60 +:+ PyStr.nl).

End Quick.

(** ** [scripts/quick_init_v2.py] *)

Module QuickV2.

(** [run]: run a command and optionally exit on failure. *)
Definition run (cmd : list string) (check : bool) : M CompletedProcess :=
  result <- subprocess_run cmd false ;;
  if (check && negb (returncode result =? 0))%bool then
    print ("❌ Error: " +:+ stderr result) ;;
    sys_exit 1
  else ret result.

(** [check_coderabbit] *)
Definition check_coderabbit : M bool :=
  result <- run ["which"; "coderabbit"] false ;;
  ret (returncode result =? 0).

(** [print_install_instructions] *)
Definition print_install_instructions : M unit :=
  print (PyStr.nl +:+ repeat_str "=" 60) ;;
  print "📦 CodeRabbit CLI Installation" ;;
  print (repeat_str "=" 60) ;;
  print "
Run this command:" ;;
  print "
  curl -fsSL https://cli.coderabbit.ai/install.sh | sh" ;;
  print "
Then configure it:" ;;
  print "  coderabbit configure" ;;
  print (PyStr.nl +:+ repeat_str "=" 60).

(** [load_template]: the text of the template, [None] when it is missing. *)
Definition load_template (template_name : string) : M (option string) :=
  ex <- template_exists template_name ;;
  if ex then
    text <- template_read_text template_name ;;
    ret (Some text)
  else ret None.

(** Truthiness of what [load_template] returns: [None] and the empty
    text are both false. *)
Definition loaded (content : option string) : bool :=
  match content with
  | Some text => PyStr.truthy text
  | None => false
  end.

Definition text_of (content : option string) : string :=
  match content with
  | Some text => text
  | None => ""
  end.

Definition minimal_gitignore : string :=
  PyStr.strip "
__pycache__/
*.py[cod]
.venv/
venv/
.env
.DS_Store
.idea/
.vscode/
".

Definition minimal_coderabbit : string :=
  PyStr.strip "
language: en
reviews:
  auto_review: true
  request_changes_workflow: true
".

Definition how_it_works : string :=
  ("
When you commit:
  1. git commit -m " +:+ PyStr.dq +:+ "message" +:+ PyStr.dq +:+ "
  2. Pre-commit hook runs automatically
  3. CodeRabbit reviews your changes
  4. If issues found → commit blocked
  5. If all good → commit proceeds

To skip the hook (not recommended):
  git commit --no-verify -m " +:+ PyStr.dq +:+ "message" +:+ PyStr.dq +:+ "

Next steps:
  • Customize .coderabbit.yaml for your needs
  • Start coding!
").

Definition minimal_hook : string :=
  ("#!/bin/sh
echo " +:+ PyStr.dq +:+ "🐰 Running CodeRabbit review..." +:+ PyStr.dq +:+ "
if ! command -v coderabbit &> /dev/null; then
    echo " +:+ PyStr.dq +:+ "⚠️  CodeRabbit CLI not found!" +:+ PyStr.dq +:+ "
    echo " +:+ PyStr.dq +:+ "Install: curl -fsSL https://cli.coderabbit.ai/install.sh | sh" +:+ PyStr.dq +:+ "
    exit 0
fi
git diff --cached --name-only | xargs coderabbit review || exit 1
").

(** [main] *)
Definition main : M unit :=
  files <- visible_entries ;;
  (if negb (bool_decide (files = [])) then
     print "⚠️  Folder not empty!" ;;
     answer <- input "Continue? (y/n): " ;;
     if negb (String.eqb (PyStr.lower answer) "y") then sys_exit 0 else ret tt
   else ret tt) ;;
  print "🚀 Initializing project...
" ;;
  has_git <- path_exists ".git" ;;
  (if negb has_git then
     run ["git"; "init"] true ;;
     run ["git"; "branch"; "-M"; "main"] true ;;
     print "✅ Git initialized"
   else ret tt) ;;
  gitignore_content <- load_template "gitignore.python" ;;
  (if loaded gitignore_content then
     write_text ".gitignore" (text_of gitignore_content) ;;
     print "✅ .gitignore created from template"
   else
     write_text ".gitignore" minimal_gitignore ;;
     print "✅ .gitignore created (minimal)") ;;
  gitattributes_content <- load_template "gitattributes" ;;
  (if loaded gitattributes_content then
     write_text ".gitattributes" (text_of gitattributes_content) ;;
     print "✅ .gitattributes created from template"
   else
     write_text ".gitattributes" ("* text=auto eol=lf" +:+ PyStr.nl) ;;
     print "✅ .gitattributes created (minimal)") ;;
  coderabbit_content <- load_template "coderabbit.yaml" ;;
  (if loaded coderabbit_content then
     write_text ".coderabbit.yaml" (text_of coderabbit_content) ;;
     print "✅ CodeRabbit config created from template"
   else
     write_text ".coderabbit.yaml" minimal_coderabbit ;;
     print "✅ CodeRabbit config created (minimal)") ;;
  coderabbit_installed <- check_coderabbit ;;
  (if negb coderabbit_installed then
     print "⚠️  CodeRabbit CLI not installed"
   else
     print "✅ CodeRabbit CLI is installed") ;;
  mkdir_exist_ok ".git/hooks" ;;
  hook_content <- load_template "pre-commit" ;;
  (if loaded hook_content then
     write_text ".git/hooks/pre-commit" (text_of hook_content) ;;
     print "✅ Pre-commit hook created from template"
   else
     write_text ".git/hooks/pre-commit" minimal_hook ;;
     print "✅ Pre-commit hook created (minimal)") ;;
  chmod ".git/hooks/pre-commit" 493 ;;
  git_user <- run ["git"; "config"; "user.name"] false ;;
  git_email <- run ["git"; "config"; "user.email"] false ;;
  (if ((returncode git_user =? 0) && (returncode git_email =? 0))%bool then
    run ["git"; "add"; "."] true ;;
    run ["git"; "commit"; "-m"; "Initial commit"] true ;;
    print "✅ Initial commit done"
   else
     print "⚠️  Git user not configured - skipping initial commit" ;;
     print "   Set with: git config --global user.name 'Your Name'" ;;
     print "             git config --global user.email 'you@example.com'") ;;
  print "
🎉 Done!
" ;;
  (if negb coderabbit_installed then print_install_instructions else ret tt) ;;
  print (PyStr.nl +:+ repeat_str "=" 60) ;;
  print "🐰 How It Works" ;;
  print (repeat_str "=" 60) ;;
  print how_it_works ;;
  print (repeat_str "=" 60 +:+ PyStr.nl).

End QuickV2.

(** ** [scripts/full_init_project.py] *)

Module Full.

(** The fields of a constructed [ProjectInitializer]; the templates
    directory exists once [__init__] is through. *)
Record ProjectInitializer := mkInit {
  project_path : string;
  templates_dir : string }.

(** A [replace_vars] dict, in insertion order. *)
Definition dict : Type := list (string * string).

(** [if replace_vars:] is false for [None] and for the empty dict. *)
Definition dict_truthy (d : option dict) : bool :=
  match d with
  | Some (_ :: _) => true
  | _ => false
  end.

(** [for key, value in replace_vars.items(): content = content.replace(...)] *)
Fixpoint substitute (items : dict) (content : string) : string :=
  match items with
  | [] => content
  | (key, value) :: rest =>
      substitute rest (PyStr.replace content ("{" +:+ key +:+ "}") value)
  end.

(** [# Replace variables if provided]: the three lines of [copy_template]
    between reading the template and writing the destination. *)
Definition render (replace_vars : option dict) (content : string) : string :=
  if dict_truthy replace_vars
  then substitute (default [] replace_vars) content
  else content.

Section Methods.
Variable self : ProjectInitializer.

(** [_create_basic_templates]: the three minimal templates;
    [mkdir(parents=True, exist_ok=True)] makes the directory itself, which
    holds no template yet when it was missing. *)
Definition _create_basic_templates : M unit :=
  template_write_text "gitignore.python"
    ("__pycache__/" +:+ PyStr.nl +:+ "*.py[cod]" +:+ PyStr.nl +:+ ".venv/" +:+ PyStr.nl
     +:+ "venv/" +:+ PyStr.nl +:+ ".env" +:+ PyStr.nl +:+ ".DS_Store" +:+ PyStr.nl) ;;
  template_write_text "gitattributes" ("* text=auto eol=lf" +:+ PyStr.nl) ;;
  template_write_text "coderabbit.yaml"
    ("language: en" +:+ PyStr.nl +:+ "reviews:" +:+ PyStr.nl
     +:+ "  auto_review: true" +:+ PyStr.nl).

(** [check_empty_folder] *)
Definition check_empty_folder : M bool :=
  files <- visible_entries ;;
  ret (Nat.eqb (List.length files) 0).

(** [run_command] *)
Definition run_command (cmd : list string) (check : bool) : M CompletedProcess :=
  try_except_cpe (subprocess_run cmd check)
    (fun c rc err =>
       print ("❌ Command failed: " +:+ join_words cmd) ;;
       print ("Error: " +:+ err) ;;
       raise (CalledProcessError c rc err)).

(** [check_coderabbit_installed] *)
Definition check_coderabbit_installed : M bool :=
  result <- run_command ["which"; "coderabbit"] false ;;
  ret (returncode result =? 0).

(** [print_coderabbit_install_instructions] *)
Definition print_coderabbit_install_instructions : M unit :=
  print (PyStr.nl +:+ repeat_str "=" 60) ;;
  print "📦 CodeRabbit CLI is not installed" ;;
  print (repeat_str "=" 60) ;;
  print "
Install it with:" ;;
  print "
  curl -fsSL https://cli.coderabbit.ai/install.sh | sh" ;;
  print "
Or visit: https://www.coderabbit.ai/docs/cli" ;;
  print "
After installation, restart your terminal and run:" ;;
  print "  coderabbit configure" ;;
  print (repeat_str "=" 60 +:+ PyStr.nl).

(** [init_git] *)
Definition init_git : M bool :=
  print "🔧 Initializing git repository..." ;;
  has_git <- path_exists ".git" ;;
  if has_git then
    print "⚠️  Git already initialized, skipping..." ;;
    ret false
  else
    run_command ["git"; "init"] true ;;
    run_command ["git"; "branch"; "-M"; "main"] true ;;
    print "✅ Git initialized with main branch" ;;
    ret true.

(** [copy_template] *)
Definition copy_template (template_name destination : string)
    (replace_vars : option dict) : M unit :=
  found <- template_exists template_name ;;
  if negb found then
    print ("⚠️  Template not found: " +:+ template_name)
  else
    content <- template_read_text template_name ;;
    let content := render replace_vars content in
    write_text destination content ;;
    print ("✅ Created " +:+ destination).

(** [create_gitignore] *)
Definition create_gitignore (language : string) : M unit :=
  print ("📝 Creating .gitignore for " +:+ language +:+ "...") ;;
  let template_name := "gitignore." +:+ language in
  found <- template_exists template_name ;;
  template_name <-
    (if negb found then
       print ("⚠️  Template for " +:+ language +:+ " not found, using generic...") ;;
       ret "gitignore.generic"
     else ret template_name) ;;
  copy_template template_name ".gitignore" None.

(** [create_git_attributes] *)
Definition create_git_attributes : M unit :=
  print "📝 Creating .gitattributes..." ;;
  copy_template "gitattributes" ".gitattributes" None.

(** [setup_precommit_hook] *)
Definition setup_precommit_hook : M unit :=
  print "🪝 Setting up pre-commit hook..." ;;
  mkdir_exist_ok ".git/hooks" ;;
  copy_template "pre-commit" ".git/hooks/pre-commit" None ;;
  chmod ".git/hooks/pre-commit" 493 ;;
  print "✅ Pre-commit hook created and made executable".

(** [setup_coderabbit_cli] *)
Definition setup_coderabbit_cli : M unit :=
  print "🐰 Setting up CodeRabbit CLI configuration..." ;;
  installed <- check_coderabbit_installed ;;
  (if negb installed then print_coderabbit_install_instructions
   else print "✅ CodeRabbit CLI is installed") ;;
  copy_template "coderabbit.yaml" ".coderabbit.yaml" None.

(** [create_readme] *)
Definition create_readme (project_name : option string) : M unit :=
  print "📄 Creating README.md..." ;;
  let project_name :=
    match project_name with
    | None => basename (project_path self)
    | Some name => name
    end in
  copy_template "README.md" "README.md" (Some [("PROJECT_NAME", project_name)]).

Definition workflow_text : string :=
  ("
How CodeRabbit Works with Git:

1. 📝 You make code changes
   └─ Edit your files as usual

2. 📦 Stage your changes
   └─ git add .
   
3. 💬 Commit your changes
   └─ git commit -m " +:+ PyStr.dq +:+ "Your commit message" +:+ PyStr.dq +:+ "
   
4. 🤖 Pre-commit hook triggers automatically
   ├─ CodeRabbit CLI reviews your staged changes
   ├─ Checks for:
   │  • Code quality issues
   │  • Potential bugs
   │  • Security vulnerabilities
   │  • Best practice violations
   │  • Performance issues
   └─ Provides inline suggestions

5. ✅ Two possible outcomes:
   a) Review passes → Commit proceeds ✓
   b) Issues found → Commit blocked ✗
      └─ Review the feedback
      └─ Fix issues and try again
      └─ Or skip with: git commit --no-verify

Benefits:
• Catches issues before they reach your repo
• Learns from your codebase over time
• Provides context-aware suggestions
• Works offline (local analysis)
• Integrates with GitHub/GitLab for PR reviews

Configuration:
• Edit .coderabbit.yaml to customize behavior
• Add path-specific instructions
• Enable/disable specific checks
").

(** [print_workflow_explanation] *)
Definition print_workflow_explanation : M unit :=
  print (PyStr.nl +:+ repeat_str "=" 60) ;;
  print "🐰 CodeRabbit Workflow Explanation" ;;
  print (repeat_str "=" 60) ;;
  print workflow_text ;;
  print (repeat_str "=" 60 +:+ PyStr.nl).

(** [check_git_config] *)
Definition check_git_config : M (bool * bool) :=
  user_name <- run_command ["git"; "config"; "user.name"] false ;;
  user_email <- run_command ["git"; "config"; "user.email"] false ;;
  ret (returncode user_name =? 0, returncode user_email =? 0).

Definition max_retries : nat := 4.
Definition retry_delays : list Z := [2; 4; 8; 16].

(** The tail of [setup_remote_and_push], from [# Push to remote with
    retry logic] on. *)
Definition push_with_retry : M unit :=
  print "
📤 Pushing to remote..." ;;
  for_each (range max_retries) (fun attempt =>
    try_except_cpe
      (run_command ["git"; "push"; "-u"; "origin"; "main"] true ;;
       print "✅ Successfully pushed to remote!" ;;
       ret Return)
      (fun _ _ e_stderr =>
         if (attempt <? max_retries - 1)%nat then
           match retry_delays !! attempt with
           | None => raise IndexError
           | Some delay =>
               print ("   ⚠️  Push failed (attempt " +:+ str_of_nat (attempt + 1)
                      +:+ "/" +:+ str_of_nat max_retries +:+ "), retrying in "
                      +:+ str_of_Z delay +:+ "s...") ;;
               sleep delay ;;
               ret Continue
           end
         else
           print ("   ❌ Failed to push after " +:+ str_of_nat max_retries +:+ " attempts") ;;
           print ("   Error: " +:+ e_stderr) ;;
           print "
   You can push manually later with:" ;;
           print "   git push -u origin main" ;;
           ret Return)) ;;
  ret tt.

(** [setup_remote_and_push] *)
Definition setup_remote_and_push : M unit :=
  print "
🌐 Setting up remote repository..." ;;
  result <- run_command ["git"; "remote"; "get-url"; "origin"] false ;;
  if returncode result =? 0 then
    let remote_url := PyStr.strip (stdout result) in
    print ("✅ Remote 'origin' already exists: " +:+ remote_url) ;;
    answer <- input "   Push to this remote? (y/n): " ;;
    let push_to_existing := PyStr.lower answer in
    if negb (String.eqb push_to_existing "y") then
      print "   Skipping push to remote."
    else push_with_retry
  else
    print "📡 No remote repository configured." ;;
    answer <- input "   Add a remote repository? (y/n): " ;;
    let add_remote := PyStr.lower answer in
    if negb (String.eqb add_remote "y") then
      print "   Skipping remote setup. You can add it later with:" ;;
      print "   git remote add origin <url>" ;;
      print "   git push -u origin main"
    else
      line <- input "   Enter remote repository URL (e.g., git@github.com:user/repo.git): " ;;
      let remote_url := PyStr.strip line in
      if negb (PyStr.truthy remote_url) then
        print "   No URL provided, skipping remote setup."
      else
        print ("   Adding remote 'origin': " +:+ remote_url) ;;
        added <- try_except_cpe
          (run_command ["git"; "remote"; "add"; "origin"; remote_url] true ;;
           print "   ✅ Remote added successfully" ;;
           ret true)
          (fun _ _ _ =>
             print "   ❌ Failed to add remote" ;;
             ret false) ;;
        if added then push_with_retry else ret tt.

(** [run] *)
Definition run (language : string) (create_readme_flag explain_workflow : bool) : M unit :=
  print ("🚀 Initializing project in: " +:+ project_path self) ;;
  print ("📁 Templates directory: " +:+ templates_dir self +:+ PyStr.nl) ;;
  empty <- check_empty_folder ;;
  (if negb empty then
     answer <- input "⚠️  Folder is not empty. Continue anyway? (y/n): " ;;
     let proceed := PyStr.lower answer in
     if negb (String.eqb proceed "y") then
       print "Aborting..." ;;
       sys_exit 0
     else ret tt
   else ret tt) ;;
  git_initialized <- init_git ;;
  create_gitignore language ;;
  create_git_attributes ;;
  setup_coderabbit_cli ;;
  (if git_initialized then setup_precommit_hook else ret tt) ;;
  (if create_readme_flag then create_readme None else ret tt) ;;
  (if git_initialized then
     config <- check_git_config ;;
     let '(has_name, has_email) := config in
     if (negb has_name || negb has_email)%bool then
       print "
⚠️  Git user not configured. Skipping initial commit." ;;
       print "
📝 Configure with:" ;;
       print "  git config --global user.name 'Your Name'" ;;
       print "  git config --global user.email 'you@example.com'"
     else
       print "
📦 Creating initial commit..." ;;
       print "   (Skipping pre-commit hook for initial setup)" ;;
       run_command ["git"; "add"; "."] true ;;
       run_command ["git"; "commit"; "--no-verify"; "-m";
                    "Initial commit: Project setup with CodeRabbit CLI"] true ;;
       print "✅ Initial commit created (pre-commit hook skipped for setup)" ;;
       setup_remote_and_push
   else ret tt) ;;
  print "
🎉 Project initialization complete!" ;;
  (if explain_workflow then print_workflow_explanation else ret tt) ;;
  print "📋 Next steps:" ;;
  installed <- check_coderabbit_installed ;;
  (if negb installed then
     print "  1. Install CodeRabbit CLI (see instructions above)" ;;
     print "  2. Run: coderabbit configure" ;;
     print "  3. Start coding!"
   else
     print "  1. Configure CodeRabbit: coderabbit configure (if not done)" ;;
     print "  2. Customize .coderabbit.yaml to your needs" ;;
     print "  3. Start coding!") ;;
  print (join_words ["
💡 Tip: Edit templates in"; templates_dir self;
                     "to customize future projects"]).

End Methods.

End Full.

(** ** [scripts/tui_init.py]: the methods that set the project up *)

Module Tui.

(** [console.print(text, style=...)]: the style only colours the text. *)
Definition console_print (text : string) : M unit := print text.

(** [with Status(text): body]: the spinner is shown while [body] runs. *)
Definition with_status {A} (text : string) (body : M A) : M A := fun w =>
  prepend [EvStatus text] (body w).

(** [copy_template] *)
Definition copy_template (template_name destination : string)
    (replace_vars : option Full.dict) : M unit :=
  found <- template_exists template_name ;;
  if negb found then
    console_print ("⚠️  Template not found: " +:+ template_name)
  else
    content <- template_read_text template_name ;;
    let content := Full.render replace_vars content in
    write_text destination content.

(** [create_gitignore] *)
Definition create_gitignore (language : string) : M unit :=
  with_status ("Creating .gitignore for " +:+ language +:+ "...")
    (let template_name := "gitignore." +:+ language in
     found <- template_exists template_name ;;
     let template_name := if negb found then "gitignore.generic" else template_name in
     copy_template template_name ".gitignore" None).

(** [_create_basic_templates] *)
Definition _create_basic_templates : M unit :=
  template_write_text "gitignore.python"
    ("__pycache__/" +:+ PyStr.nl +:+ "*.py[cod]" +:+ PyStr.nl +:+ ".venv/" +:+ PyStr.nl
     +:+ "venv/" +:+ PyStr.nl +:+ ".env" +:+ PyStr.nl +:+ ".DS_Store" +:+ PyStr.nl) ;;
  template_write_text "gitattributes" ("* text=auto eol=lf" +:+ PyStr.nl) ;;
  template_write_text "coderabbit.yaml"
    ("language: en" +:+ PyStr.nl +:+ "reviews:" +:+ PyStr.nl
     +:+ "  auto_review: true" +:+ PyStr.nl).

(** [run_command] *)
Definition run_command (cmd : list string) (check : bool) : M CompletedProcess :=
  try_except_cpe (subprocess_run cmd check)
    (fun c rc err =>
       console_print ("❌ Command failed: " +:+ join_words cmd) ;;
       console_print ("Error: " +:+ err) ;;
       raise (CalledProcessError c rc err)).



(** [create_git_attributes] *)
Definition create_git_attributes : M unit :=
  with_status "Creating .gitattributes..."
    (copy_template "gitattributes" ".gitattributes" None).

(** [setup_precommit_hook] *)
Definition setup_precommit_hook : M unit :=
  with_status "Setting up pre-commit hook..."
    (mkdir_exist_ok ".git/hooks" ;;
     copy_template "pre-commit" ".git/hooks/pre-commit" None ;;
     chmod ".git/hooks/pre-commit" 493).

(** [setup_coderabbit_cli] *)
Definition setup_coderabbit_cli : M unit :=
  with_status "Setting up CodeRabbit CLI configuration..."
    (copy_template "coderabbit.yaml" ".coderabbit.yaml" None).

(** The [project_info] dict that [get_project_info] returns. *)
Record ProjectInfo := mkInfo {
  name : string;
  description : string;
  language : string }.

(** The f-string of [create_readme]. *)
Definition readme_content (project_info : ProjectInfo) : string :=
  ("# " +:+ name project_info +:+ "

" +:+ description project_info +:+ "

## Getting Started

This project was initialized with the Smart Repository Initializer.

## Development

### Prerequisites

- Python 3.8+
- Git
- CodeRabbit CLI (optional but recommended)

### Setup

1. Clone the repository
2. Install dependencies (if any)
3. Start developing!

## CodeRabbit Integration

This project is configured with CodeRabbit CLI for automated code reviews.
CodeRabbit will automatically review your commits and provide feedback.

### Installation

```bash
curl -fsSL https://cli.coderabbit.ai/install.sh | sh
coderabbit configure
```

### Usage

CodeRabbit will automatically run on each commit via the pre-commit hook.
You can also run it manually:

```bash
coderabbit review
```

## License

[Add your license here]
").

(** [create_readme] *)
Definition create_readme (project_info : ProjectInfo) : M unit :=
  with_status "Creating README.md..."
    (write_text "README.md" (readme_content project_info)).

(** [create_initial_commit] *)
Definition create_initial_commit : M unit :=
  with_status "Creating initial commit..."
    (run_command ["git"; "add"; "."] true ;;
     run_command ["git"; "commit"; "-m";
                  "Initial commit: Project setup with CodeRabbit CLI"] true ;;
     ret tt).

End Tui.

(** ** What is read off a run *)

Definition push_cmd : list string := ["git"; "push"; "-u"; "origin"; "main"].
Definition get_url_cmd : list string := ["git"; "remote"; "get-url"; "origin"].
Definition add_cmd (url : string) : list string :=
  ["git"; "remote"; "add"; "origin"; url].

(** The durations slept, in order. *)
Definition sleeps (tr : list Event) : list Z :=
  omap (fun e => match e with EvSleep d => Some d | _ => None end) tr.

(** The commands run, in order. *)
Definition runs (tr : list Event) : list (list string) :=
  omap (fun e => match e with EvRun cmd _ => Some cmd | _ => None end) tr.

(** The outcomes of the [git push] attempts, in order. *)
Definition pushed (tr : list Event) : list CompletedProcess :=
  omap (fun e => match e with
                 | EvRun cmd cp => if bool_decide (cmd = push_cmd) then Some cp else None
                 | _ => None
                 end) tr.


(** A command that did not exit with status zero. *)
Definition failed (cp : CompletedProcess) : Prop := returncode cp <> 0.


(** The operator's answer counts as a yes: [answer.lower() == 'y']. *)
Definition confirms (answer : string) : bool :=
  String.eqb (PyStr.lower answer) "y".

(** The placeholder of a key: [f"{{{key}}}"]. *)
Definition placeholder (key : string) : string := "{" +:+ key +:+ "}".

(** The message of a successful push, and the report after the last
    failed attempt. *)
Definition success_msg : string := "✅ Successfully pushed to remote!".

Definition failure_report (err : string) : list Event :=
  [ EvPrint "   ❌ Failed to push after 4 attempts";
    EvPrint ("   Error: " +:+ err);
    EvPrint (PyStr.nl +:+ "   You can push manually later with:");
    EvPrint "   git push -u origin main" ].

(** The two ways the retry loop can end: some attempt succeeded after
    [fails], or all four attempts [outs] failed. *)
Inductive retry_shape (r : Run unit) : Prop :=
| retry_success (fails : list CompletedProcess) (ok : CompletedProcess)
    (pre : list Event) :
    res r = Ok tt ->
    pushed (trace r) = fails ++ [ok] ->
    Forall failed fails ->
    returncode ok = 0 ->
    (List.length fails <= 3)%nat ->
    sleeps (trace r) = take (List.length fails) [2; 4; 8; 16] ->
    trace r = pre ++ [EvRun push_cmd ok; EvPrint success_msg] ->
    retry_shape r
| retry_exhausted (outs : list CompletedProcess) (final : CompletedProcess)
    (pre mid : list Event) :
    res r = Ok tt ->
    pushed (trace r) = outs ++ [final] ->
    List.length outs = 3%nat ->
    Forall failed (outs ++ [final]) ->
    sleeps (trace r) = [2; 4; 8] ->
    trace r = pre ++ EvRun push_cmd final :: mid ++ failure_report (stderr final) ->
    sleeps mid = [] ->
    retry_shape r.

(** The two ways [setup_remote_and_push] can go from the world [w]: it
    settles the remote with the events [pre] and runs the retry loop
    [loop] from the world it has reached, or it ends before any push; the
    operator's input runs out only if fewer than two lines were left. *)
Inductive setup_shape (loop : M unit) (w : World) (r : Run unit) : Prop :=
| setup_pushes (pre : list Event) (w' : World) :
    r = prepend pre (loop w') ->
    sleeps pre = [] ->
    pushed pre = [] ->
    setup_shape loop w r
| setup_stops :
    sleeps (trace r) = [] ->
    pushed (trace r) = [] ->
    res r = Ok tt \/ (res r = Raise EOFError /\ (List.length (stdin w) < 2)%nat) ->
    setup_shape loop w r.

(** ** Sample worlds *)

Definition cp_ok : CompletedProcess := mkCP 0 "" "".
Definition cp_err : CompletedProcess := mkCP 1 "" "fatal: unable to access".

(** Every command outside the network goes through. *)
Definition all_ok : list string -> CompletedProcess := fun _ => cp_ok.

(** A repository whose [origin] is configured, an operator who answers
    [answers], a network that answers the pushes with [ps]. *)
Definition with_origin (answers : list string) (ps : list CompletedProcess) : World :=
  mkWorld answers ∅ ∅ {["origin" := "git@github.com:user/repo.git"]} ps all_ok.

(** The same without a remote; [orc] decides the other commands. *)
Definition without_origin (answers : list string) (ps : list CompletedProcess)
    (orc : list string -> CompletedProcess) : World :=
  mkWorld answers ∅ ∅ ∅ ps orc.

(** The questions put to the operator with the answers given, in order. *)
Definition inputs (tr : list Event) : list (string * option string) :=
  omap (fun e => match e with EvInput p a => Some (p, a) | _ => None end) tr.

Definition push_prompt : string := "   Push to this remote? (y/n): ".
Definition add_prompt : string := "   Add a remote repository? (y/n): ".
Definition url_prompt : string :=
  "   Enter remote repository URL (e.g., git@github.com:user/repo.git): ".

(** The events of [setup_remote_and_push] up to the first question, and
    after a refusal. *)
Definition found_origin (url : string) : list Event :=
  [ EvPrint (PyStr.nl +:+ "🌐 Setting up remote repository...");
    EvRun get_url_cmd (mkCP 0 (url +:+ PyStr.nl) "");
    EvPrint ("✅ Remote 'origin' already exists: " +:+ PyStr.strip (url +:+ PyStr.nl)) ].

Definition found_no_origin : list Event :=
  [ EvPrint (PyStr.nl +:+ "🌐 Setting up remote repository...");
    EvRun get_url_cmd (mkCP 2 "" "error: No such remote 'origin'");
    EvPrint "📡 No remote repository configured." ].

Definition declined_events (origin : option string) (answer : string) : list Event :=
  match origin with
  | Some url =>
      found_origin url ++
      [ EvInput push_prompt (Some answer);
        EvPrint "   Skipping push to remote." ]
  | None =>
      found_no_origin ++
      [ EvInput add_prompt (Some answer);
        EvPrint "   Skipping remote setup. You can add it later with:";
        EvPrint "   git remote add origin <url>";
        EvPrint "   git push -u origin main" ]
  end.


(** [git commit ...] *)
Definition is_commit (cmd : list string) : bool :=
  match args_after ["git"; "commit"] cmd with
  | Some _ => true
  | None => false
  end.

(** The command carries [--no-verify]: the pre-commit hook is bypassed. *)
Definition bypasses_hook (cmd : list string) : bool :=
  existsb (String.eqb "--no-verify") cmd.

(** The commits of a run, in order. *)
Definition commits (tr : list Event) : list (list string) :=
  List.filter is_commit (runs tr).

(** A fresh, empty project directory; git and the review tool work, the
    git user is configured, the operator declines the remote. *)
Definition fresh_project : World :=
  mkWorld ["n"] ∅ ∅ ∅ [] all_ok.

(** The same with the templates the scripted variant copies. *)
Definition fresh_project_with_templates : World :=
  mkWorld ["n"]
    {[ "gitignore.python" := "__pycache__/";
       "gitattributes" := "* text=auto eol=lf";
       "coderabbit.yaml" := "language: en";
       "pre-commit" := "#!/bin/sh";
       "README.md" := "# {PROJECT_NAME}" ]}
    ∅ ∅ [] all_ok.

Definition sample_initializer : Full.ProjectInitializer :=
  Full.mkInit "/home/user/project" "/home/user/scripts/templates".

(** ** Properties of all the commands of a run *)

(** [runs_sat P m]: in every run of [m], every command run satisfies [P]. *)
Definition runs_sat (P : list string -> Prop) {A} (m : M A) : Prop :=
  forall w, Forall P (runs (trace (m w))).

(** A commit, if the command is one, bypasses the hook. *)
Definition commit_bypasses (cmd : list string) : Prop :=
  implb (is_commit cmd) (bypasses_hook cmd) = true.

(** A commit, if the command is one, leaves the hook in force. *)
Definition commit_verifies (cmd : list string) : Prop :=
  implb (is_commit cmd) (negb (bypasses_hook cmd)) = true.

(** ** Runs that return *)



(** A command that changes nothing the model tracks: its outcome is the
    oracle's. *)
Definition inert (cmd : list string) : Prop :=
  forall w, external cmd w = (oracle w cmd, w).

Definition init_cmd : list string := ["git"; "init"].
Definition branch_cmd : list string := ["git"; "branch"; "-M"; "main"].
Definition stage_cmd : list string := ["git"; "add"; "."].
Definition commit_cmd : list string :=
  ["git"; "commit"; "--no-verify"; "-m";
   "Initial commit: Project setup with CodeRabbit CLI"].

(** The commands run with [check=True] all succeed. *)
Definition git_works (orc : list string -> CompletedProcess) : Prop :=
  returncode (orc init_cmd) = 0 /\
  returncode (orc branch_cmd) = 0 /\
  returncode (orc stage_cmd) = 0 /\
  returncode (orc commit_cmd) = 0.

(** The files the scripts write. *)
Definition targets : list string :=
  [".gitignore"; ".gitattributes"; ".coderabbit.yaml"; "README.md";
   ".git/hooks/pre-commit"].

(** The project directory after [git init]: [.git] is a directory, the
    hooks directory is one or is absent, and no file to write is in fact a
    directory. *)
Definition tree_ok (f : gmap string Node) : Prop :=
  f !! ".git" = Some Dir /\
  (forall c m, f !! ".git/hooks" <> Some (File c m)) /\
  Forall (fun p => f !! p <> Some Dir) targets.

(** The state in which the scripts go on after [git init]; [T] is what is
    known of the templates directory. *)
Definition ready (T : gmap string string -> Prop) (w : World) : Prop :=
  T (templates w) /\
  git_works (oracle w) /\
  (2 <= List.length (stdin w))%nat /\
  tree_ok (fs w).

Definition ready_hooks (T : gmap string string -> Prop) (w : World) : Prop :=
  ready T w /\ fs w !! ".git/hooks" = Some Dir.






(** A fresh directory in which no command succeeds. *)
Definition broken_git : World :=
  mkWorld [] ∅ ∅ ∅ [] (fun _ => cp_err).


(** ** What a run leaves alone *)

(** [keeps I m]: every run of [m], however it ends, leaves [I] in force. *)
Definition keeps (I : World -> Prop) {A} (m : M A) : Prop :=
  forall w, I w -> I (world (m w)).

(** The external command [cmd] leaves [I] in force. *)
Definition ext_keeps (I : World -> Prop) (cmd : list string) : Prop :=
  forall w, I w -> I (snd (external cmd w)).

(** [I] does not look at the operator's input. *)
Definition stdin_blind (I : World -> Prop) : Prop :=
  forall l w, I w -> I (set_stdin l w).

(** [I] lets the entry at [p] change. *)
Definition allows_write (I : World -> Prop) (p : string) : Prop :=
  forall n w, I w -> I (set_fs (<[p := n]> (fs w)) w).

(** [same_outside S w0 w]: [w] has the templates of [w0], and the entries
    of its project directory at every path outside [S]. *)
Definition same_outside (S : list string) (w0 w : World) : Prop :=
  templates w = templates w0 /\
  forall p, p ∉ S -> fs w !! p = fs w0 !! p.



(** The remote table and the network are those of [w0]. *)
Definition same_remote (w0 w : World) : Prop :=
  remotes w = remotes w0 /\ pushes w = pushes w0.

(** The command is neither [git remote ...] nor [git push ...]. *)
Definition off_line (cmd : list string) : Prop :=
  args_after ["git"; "remote"] cmd = None /\
  args_after ["git"; "push"] cmd = None.

(** The remote table is [R]. *)
Definition remotes_are (R : gmap string string) (w : World) : Prop :=
  remotes w = R.

(** ** More commands and paths of the scripts *)

Definition which_cmd : list string := ["which"; "coderabbit"].
Definition name_cmd : list string := ["git"; "config"; "user.name"].
Definition email_cmd : list string := ["git"; "config"; "user.email"].

(** The initial commit of the TUI variant. *)
Definition tui_commit_cmd : list string :=
  ["git"; "commit"; "-m"; "Initial commit: Project setup with CodeRabbit CLI"].

(** The question the scripted variant asks in a directory that is not
    empty, and the one of the quick scripts. *)
Definition full_continue_prompt : string :=
  "⚠️  Folder is not empty. Continue anyway? (y/n): ".
Definition quick_continue_prompt : string := "Continue? (y/n): ".

(** The project directory holds [.git] as a directory, the hooks
    directory is one or is absent. *)
Definition git_dir_ok (f : gmap string Node) : Prop :=
  f !! ".git" = Some Dir /\
  forall c m, f !! ".git/hooks" <> Some (File c m).

(** The names [_create_basic_templates] writes. *)
Definition basic_names : list string :=
  ["gitignore.python"; "gitattributes"; "coderabbit.yaml"].

(** ** More sample worlds *)

(** A repository just initialised, with no templates at all. *)
Definition bare_repository : World :=
  mkWorld [] ∅ {[".git" := Dir]} ∅ [] all_ok.


(** A directory that holds a file, and nobody at the keyboard. *)
Definition unattended : World :=
  mkWorld [] ∅ {["notes.txt" := File "to do" 420]} ∅ [] all_ok.


(** ** The project directory the scripts build *)





(** A new file at [p] with the text [content], if there is one. *)
Definition put (content : option string) (p : string) (f : gmap string Node)
    : gmap string Node :=
  match content with
  | Some text => <[p := File text 420]> f
  | None => f
  end.






(** ** More properties of the commands of a run *)

(** The program is [git], or the command is [which coderabbit]. *)
Definition git_or_which (cmd : list string) : Prop :=
  head cmd = Some "git" \/ cmd = which_cmd.

(** The command is not the push. *)
Definition not_push (cmd : list string) : Prop := cmd <> push_cmd.

(** The pushes of a run stop at the first one that goes through, and
    are four at most: all but the last have failed. *)
Definition stops_at_success (ps : list CompletedProcess) : Prop :=
  ps = [] \/
  exists earlier last,
    ps = earlier ++ [last] /\ Forall failed earlier /\ (List.length earlier <= 3)%nat.

(** [pushes_like S m]: the pushes of every run of [m] satisfy [S]. *)
Definition pushes_like (S : list CompletedProcess -> Prop) {A} (m : M A) : Prop :=
  forall w, S (pushed (trace (m w))).

(** No placeholder of the dict occurs in the text. *)
Definition no_placeholder (items : Full.dict) (text : string) : Prop :=
  Forall (fun kv => PyStr.contains (placeholder kv.1) text = false) items.

(** ** Runs from a world that is known in part *)

(** [obeys P E m]: in every run of [m] from a world that satisfies [P],
    every event satisfies [E]. *)
Definition obeys (P : World -> Prop) (E : Event -> Prop) {A} (m : M A) : Prop :=
  forall w, P w -> Forall E (trace (m w)).

(** [gives P V m]: what [m] returns from a world that satisfies [P]
    satisfies [V]. *)
Definition gives (P : World -> Prop) {A} (V : A -> Prop) (m : M A) : Prop :=
  forall w a, P w -> res (m w) = Ok a -> V a.

(** The project directory is a repository already. *)
Definition has_git (w : World) : Prop := is_Some (fs w !! ".git").

(** The outcomes of the commands outside the network are those of [orc]. *)
Definition oracle_is (orc : list string -> CompletedProcess) (w : World) : Prop :=
  oracle w = orc.

(** The only command is [which coderabbit], the only question the one
    about the folder that is not empty. *)
Definition looks_only (e : Event) : Prop :=
  match e with
  | EvRun cmd _ => cmd = which_cmd
  | EvInput prompt _ => prompt = full_continue_prompt
  | _ => True
  end.

(** The commands that come before the commit. *)
Definition setup_commands : list (list string) :=
  [init_cmd; branch_cmd; which_cmd; name_cmd; email_cmd].

(** No command but those that come before the commit, no question but
    the one about the folder that is not empty. *)
Definition before_commit (e : Event) : Prop :=
  match e with
  | EvRun cmd _ => cmd ∈ setup_commands
  | EvInput prompt _ =>
      prompt = quick_continue_prompt \/ prompt = full_continue_prompt
  | _ => True
  end.

(** The files the scripted variant copies to the project directory. *)
Definition copied_paths : list string :=
  [".gitignore"; ".gitattributes"; ".coderabbit.yaml"; "README.md"].

(** A repository with a file in it; the operator lets the run go on. *)
Definition old_repository : World :=
  mkWorld ["y"] ∅ {[".git" := Dir; "main.py" := File "print(1)" 420]} ∅ [] all_ok.

(** A fresh directory on a machine where git has no user yet. *)
Definition no_identity (cmd : list string) : CompletedProcess :=
  match cmd with
  | ["git"; "config"; _] => cp_err
  | _ => cp_ok
  end.

Definition anonymous : World := mkWorld [] ∅ ∅ ∅ [] no_identity.

(** * Properties *)

Local Open Scope run_scope.

(** ** The algebra of runs *)

Lemma prepend_nil {A} (r : Run A) : prepend [] r = r.
Proof. now destruct r. Qed.

Lemma prepend_prepend {A} (t1 t2 : list Event) (r : Run A) :
  prepend t1 (prepend t2 r) = prepend (t1 ++ t2) r.
Proof. destruct r; cbn. now rewrite app_assoc. Qed.

Lemma res_prepend {A} (t : list Event) (r : Run A) : res (prepend t r) = res r.
Proof. now destruct r. Qed.

Lemma world_prepend {A} (t : list Event) (r : Run A) : world (prepend t r) = world r.
Proof. now destruct r. Qed.

Lemma trace_prepend {A} (t : list Event) (r : Run A) :
  trace (prepend t r) = t ++ trace r.
Proof. now destruct r. Qed.

Lemma bind_assoc {A B C} (m : M A) (f : A -> M B) (g : B -> M C) (w : World) :
  bind (bind m f) g w = bind m (fun a => bind (f a) g) w.
Proof.
  unfold bind. destruct (m w) as [[a|e] w1 t1]; [|reflexivity].
  destruct (f a w1) as [[b|e] w2 t2]; cbn; [|reflexivity].
  destruct (g b w2) as [x w3 t3]; cbn. now rewrite app_assoc.
Qed.

Lemma bind_ret {A B} (a : A) (f : A -> M B) (w : World) : bind (ret a) f w = f a w.
Proof. unfold bind, ret. apply prepend_nil. Qed.

Lemma bind_raise {A B} (e : Exn) (f : A -> M B) (w : World) :
  bind (raise e) f w = mkRun (Raise e) w [].
Proof. reflexivity. Qed.

Lemma bind_sys_exit {A B} (code : Z) (f : A -> M B) (w : World) :
  bind (sys_exit code) f w = mkRun (Raise (SystemExit code)) w [].
Proof. reflexivity. Qed.

Lemma bind_print {B} (s : string) (f : unit -> M B) (w : World) :
  bind (print s) f w = prepend [EvPrint s] (f tt w).
Proof. reflexivity. Qed.

Lemma bind_sleep {B} (d : Z) (f : unit -> M B) (w : World) :
  bind (sleep d) f w = prepend [EvSleep d] (f tt w).
Proof. reflexivity. Qed.

Lemma bind_input {B} (p : string) (f : string -> M B) (w : World) :
  bind (input p) f w =
  match stdin w with
  | line :: rest => prepend [EvInput p (Some line)] (f line (set_stdin rest w))
  | [] => mkRun (Raise EOFError) w [EvInput p None]
  end.
Proof. unfold bind, input. now destruct (stdin w). Qed.

Lemma bind_subprocess_run {B} (cmd : list string) (check : bool)
    (f : CompletedProcess -> M B) (w : World) :
  bind (subprocess_run cmd check) f w =
  (if (check && negb (returncode (external cmd w).1 =? 0))%bool
   then mkRun (Raise (CalledProcessError cmd (returncode (external cmd w).1)
                                         (stderr (external cmd w).1)))
              (external cmd w).2 [EvRun cmd (external cmd w).1]
   else prepend [EvRun cmd (external cmd w).1]
                (f (external cmd w).1 (external cmd w).2)).
Proof.
  unfold bind, subprocess_run. destruct (external cmd w) as [cp w1]; cbn.
  now destruct (check && negb (returncode cp =? 0))%bool.
Qed.

Lemma bind_path_exists {B} (p : string) (f : bool -> M B) (w : World) :
  bind (path_exists p) f w = f (bool_decide (is_Some (fs w !! p))) w.
Proof. unfold bind, path_exists. apply prepend_nil. Qed.

Lemma bind_template_exists {B} (name : string) (f : bool -> M B) (w : World) :
  bind (template_exists name) f w = f (bool_decide (is_Some (templates w !! name))) w.
Proof. unfold bind, template_exists. apply prepend_nil. Qed.

Lemma bind_template_read_text {B} (name : string) (f : string -> M B) (w : World) :
  bind (template_read_text name) f w =
  match templates w !! name with
  | Some text => f text w
  | None => mkRun (Raise (FileNotFoundError name)) w []
  end.
Proof.
  unfold bind, template_read_text. destruct (templates w !! name); [|reflexivity].
  apply prepend_nil.
Qed.

Lemma bind_visible_entries {B} (f : list string -> M B) (w : World) :
  bind visible_entries f w = f (visible_names (fs w)) w.
Proof. unfold bind, visible_entries. apply prepend_nil. Qed.

(** What the external programs answer to the commands of the scripts. *)

Lemma external_get_url (w : World) :
  external get_url_cmd w =
  match remotes w !! "origin" with
  | Some url => (mkCP 0 (url +:+ PyStr.nl) "", w)
  | None => (mkCP 2 "" "error: No such remote 'origin'", w)
  end.
Proof. reflexivity. Qed.

Lemma external_add (url : string) (w : World) :
  external (add_cmd url) w =
  match remotes w !! "origin" with
  | Some _ => (mkCP 3 "" "error: remote origin already exists.", w)
  | None =>
      if returncode (oracle w (add_cmd url)) =? 0
      then (oracle w (add_cmd url), set_remotes (<["origin" := url]> (remotes w)) w)
      else (oracle w (add_cmd url), w)
  end.
Proof. reflexivity. Qed.

Lemma external_push (w : World) :
  external push_cmd w =
  match pushes w with
  | cp :: rest => (cp, set_pushes rest w)
  | [] => (push_down, w)
  end.
Proof. reflexivity. Qed.

Lemma bind_prepend {A B} (t : list Event) (r : Run A) (f : A -> M B) :
  match prepend t r with
  | mkRun (Ok a) w1 t1 => prepend t1 (f a w1)
  | mkRun (Raise e) w1 t1 => mkRun (Raise e) w1 t1
  end =
  prepend t match r with
            | mkRun (Ok a) w1 t1 => prepend t1 (f a w1)
            | mkRun (Raise e) w1 t1 => mkRun (Raise e) w1 t1
            end.
Proof. destruct r as [[a|e] w1 t1]; cbn; [|reflexivity]. now rewrite prepend_prepend. Qed.

Lemma sleeps_app (t1 t2 : list Event) : sleeps (t1 ++ t2) = sleeps t1 ++ sleeps t2.
Proof. apply omap_app. Qed.

Lemma pushed_app (t1 t2 : list Event) : pushed (t1 ++ t2) = pushed t1 ++ pushed t2.
Proof. apply omap_app. Qed.

Lemma runs_app (t1 t2 : list Event) : runs (t1 ++ t2) = runs t1 ++ runs t2.
Proof. apply omap_app. Qed.

(** ** Stepping through the scripts *)

Ltac wsimpl :=
  cbn [stdin templates fs remotes pushes oracle set_stdin set_fs set_remotes set_pushes
       fst snd returncode stdout stderr prepend app res world trace negb andb orb
       Z.eqb lookup list_lookup Nat.ltb Nat.leb Nat.sub push_down
       Quick.retry_delays Quick.max_retries Full.retry_delays Full.max_retries].

Ltac failed_all := repeat constructor; intro; discriminate.

(** [run] of the quick scripts. *)
Lemma quick_run_unchecked {B} (cmd : list string) (f : CompletedProcess -> M B)
    (w : World) :
  bind (Quick.run cmd false) f w =
  prepend [EvRun cmd (external cmd w).1] (f (external cmd w).1 (external cmd w).2).
Proof.
  unfold Quick.run. rewrite bind_assoc, bind_subprocess_run. cbn [andb].
  now rewrite bind_ret.
Qed.

Lemma quick_run_checked {B} (cmd : list string) (f : CompletedProcess -> M B)
    (w : World) :
  bind (Quick.run cmd true) f w =
  if returncode (external cmd w).1 =? 0
  then prepend [EvRun cmd (external cmd w).1] (f (external cmd w).1 (external cmd w).2)
  else mkRun (Raise (SystemExit 1)) (external cmd w).2
         [EvRun cmd (external cmd w).1;
          EvPrint ("❌ Error: " +:+ stderr (external cmd w).1)].
Proof.
  unfold Quick.run. rewrite bind_assoc, bind_subprocess_run. cbn [andb].
  destruct (returncode (external cmd w).1 =? 0); cbn [negb].
  - now rewrite bind_ret.
  - rewrite bind_assoc, bind_print. now rewrite bind_sys_exit.
Qed.

(** [run_command] of the scripted variant. *)
Lemma full_run_command (cmd : list string) (check : bool) (w : World) :
  Full.run_command cmd check w =
  if (check && negb (returncode (external cmd w).1 =? 0))%bool
  then mkRun (Raise (CalledProcessError cmd (returncode (external cmd w).1)
                       (stderr (external cmd w).1)))
         (external cmd w).2
         [EvRun cmd (external cmd w).1;
          EvPrint ("❌ Command failed: " +:+ join_words cmd);
          EvPrint ("Error: " +:+ stderr (external cmd w).1)]
  else mkRun (Ok (external cmd w).1) (external cmd w).2 [EvRun cmd (external cmd w).1].
Proof.
  unfold Full.run_command, try_except_cpe, subprocess_run.
  destruct (external cmd w) as [cp w1]; cbn [fst snd].
  destruct (check && negb (returncode cp =? 0))%bool; [|reflexivity].
  now rewrite bind_print, bind_print.
Qed.

Lemma bind_full_run_command {B} (cmd : list string) (check : bool)
    (f : CompletedProcess -> M B) (w : World) :
  bind (Full.run_command cmd check) f w =
  if (check && negb (returncode (external cmd w).1 =? 0))%bool
  then mkRun (Raise (CalledProcessError cmd (returncode (external cmd w).1)
                       (stderr (external cmd w).1)))
         (external cmd w).2
         [EvRun cmd (external cmd w).1;
          EvPrint ("❌ Command failed: " +:+ join_words cmd);
          EvPrint ("Error: " +:+ stderr (external cmd w).1)]
  else prepend [EvRun cmd (external cmd w).1] (f (external cmd w).1 (external cmd w).2).
Proof.
  unfold bind at 1. rewrite full_run_command.
  now destruct (check && negb (returncode (external cmd w).1 =? 0))%bool.
Qed.

(** A checked command followed by steps that raise nothing, under a
    handler for [CalledProcessError]: one round of the scripted retry loop
    and the registration of the remote have this form. *)
Lemma bind_try_checked {A B} (cmd : list string) (msg : string) (a : A)
    (h : list string -> Z -> string -> M A) (g : A -> M B) (w : World) :
  bind (try_except_cpe
          (Full.run_command cmd true ;; print msg ;; ret a) h) g w =
  if returncode (external cmd w).1 =? 0
  then prepend [EvRun cmd (external cmd w).1; EvPrint msg] (g a (external cmd w).2)
  else prepend [EvRun cmd (external cmd w).1;
                EvPrint ("❌ Command failed: " +:+ join_words cmd);
                EvPrint ("Error: " +:+ stderr (external cmd w).1)]
         (bind (h cmd (returncode (external cmd w).1) (stderr (external cmd w).1)) g
               (external cmd w).2).
Proof.
  unfold bind at 1, try_except_cpe. rewrite bind_full_run_command. cbn [andb].
  destruct (returncode (external cmd w).1 =? 0); cbn [negb].
  - rewrite bind_print. unfold ret. cbn. reflexivity.
  - now rewrite bind_prepend.
Qed.

(** [run] of the second quick script is the same function. *)
Lemma quick2_run_unchecked {B} (cmd : list string) (f : CompletedProcess -> M B)
    (w : World) :
  bind (QuickV2.run cmd false) f w =
  prepend [EvRun cmd (external cmd w).1] (f (external cmd w).1 (external cmd w).2).
Proof. apply (quick_run_unchecked cmd f w). Qed.

Lemma quick2_run_checked {B} (cmd : list string) (f : CompletedProcess -> M B)
    (w : World) :
  bind (QuickV2.run cmd true) f w =
  if returncode (external cmd w).1 =? 0
  then prepend [EvRun cmd (external cmd w).1] (f (external cmd w).1 (external cmd w).2)
  else mkRun (Raise (SystemExit 1)) (external cmd w).2
         [EvRun cmd (external cmd w).1;
          EvPrint ("❌ Error: " +:+ stderr (external cmd w).1)].
Proof. apply (quick_run_checked cmd f w). Qed.

Ltac mstep :=
  first [ rewrite bind_assoc | rewrite bind_ret | rewrite bind_print
        | rewrite bind_sleep | rewrite bind_raise | rewrite bind_sys_exit
        | rewrite bind_input
        | rewrite bind_visible_entries | rewrite bind_path_exists
        | rewrite bind_template_exists | rewrite bind_template_read_text
        | rewrite quick_run_unchecked | rewrite quick_run_checked
        | rewrite quick2_run_unchecked | rewrite quick2_run_checked
        | rewrite bind_full_run_command
        | rewrite bind_try_checked ];
  wsimpl.

(** ** The retry loop *)

Ltac retry_cases :=
  repeat (mstep; fold push_cmd; rewrite ?external_push; wsimpl);
  lazymatch goal with
  | |- context [match ?ps with [] => _ | _ :: _ => _ end] =>
      is_var ps; destruct ps as [|[[|?|?] ? ?] ps]; wsimpl; retry_cases
  | _ => idtac
  end.

Ltac shape_success :=
  lazymatch goal with
  | |- retry_shape (mkRun _ _ ?tr) =>
      apply (retry_success _ (removelast (pushed tr)) (List.last (pushed tr) push_down)
               (take (List.length tr - 2) tr));
      [ reflexivity | vm_compute; reflexivity | vm_compute; failed_all
      | vm_compute; reflexivity | vm_compute; lia
      | vm_compute; reflexivity | vm_compute; reflexivity ]
  end.

Ltac shape_exhausted n :=
  lazymatch goal with
  | |- retry_shape (mkRun _ _ ?tr) =>
      apply (retry_exhausted _ (removelast (pushed tr)) (List.last (pushed tr) push_down)
               (take (List.length tr - 5 - n) tr)
               (take n (drop (List.length tr - 4 - n) tr)));
      [ reflexivity | vm_compute; reflexivity | vm_compute; reflexivity
      | vm_compute; failed_all
      | vm_compute; reflexivity | vm_compute; reflexivity | vm_compute; reflexivity ]
  end.

Lemma quick_retry_shape (w : World) : retry_shape (Quick.push_with_retry w).
Proof.
  destruct w as [inp tpl f rem ps orc].
  unfold Quick.push_with_retry.
  cbn [range Quick.max_retries seq for_each].
  retry_cases.
  all: unfold ret; wsimpl.
  all: first [ solve [shape_success] | solve [shape_exhausted 0%nat] ].
Qed.

Lemma full_retry_shape (w : World) : retry_shape (Full.push_with_retry w).
Proof.
  destruct w as [inp tpl f rem ps orc].
  unfold Full.push_with_retry.
  cbn [range Full.max_retries seq for_each].
  retry_cases.
  all: unfold ret; wsimpl.
  all: first [ solve [shape_success] | solve [shape_exhausted 2%nat] ].
Qed.

(** ** The way to the retry loop *)

Ltac flatten_prepend := rewrite ?prepend_prepend; cbn [app].

Ltac shape_pushes :=
  flatten_prepend;
  eapply setup_pushes; [reflexivity | vm_compute; reflexivity | vm_compute; reflexivity].

Ltac shape_stops :=
  unfold ret, print; wsimpl;
  apply setup_stops;
  [ vm_compute; reflexivity | vm_compute; reflexivity
  | first [left; reflexivity | right; split; [reflexivity | cbn; lia]] ].

Lemma quick_setup_shape (w : World) :
  setup_shape Quick.push_with_retry w (Quick.setup_remote_and_push w).
Proof.
  destruct w as [inp tpl f rem ps orc].
  unfold Quick.setup_remote_and_push.
  mstep. mstep. fold get_url_cmd. rewrite external_get_url. wsimpl.
  destruct (rem !! "origin") as [url|] eqn:Horigin; wsimpl.
  - repeat mstep.
    destruct inp as [|answer inp]; [shape_stops|].
    destruct (String.eqb (PyStr.lower answer) "y"); wsimpl.
    + shape_pushes.
    + shape_stops.
  - repeat mstep.
    destruct inp as [|answer inp]; [shape_stops|].
    destruct (String.eqb (PyStr.lower answer) "y"); wsimpl.
    + repeat mstep.
      destruct inp as [|line inp]; [shape_stops|].
      destruct (PyStr.strip line) as [|c url] eqn:Hurl; cbn [PyStr.truthy negb].
      * shape_stops.
      * repeat mstep. fold (add_cmd (String c url)). rewrite external_add. wsimpl.
        rewrite Horigin.
        destruct (returncode (orc (add_cmd (String c url))) =? 0) eqn:Hadd;
          wsimpl; rewrite Hadd; wsimpl.
        -- repeat mstep. shape_pushes.
        -- shape_stops.
    + repeat mstep. shape_stops.
Qed.

Lemma full_setup_shape (w : World) :
  setup_shape Full.push_with_retry w (Full.setup_remote_and_push w).
Proof.
  destruct w as [inp tpl f rem ps orc].
  unfold Full.setup_remote_and_push.
  mstep. mstep. fold get_url_cmd. rewrite external_get_url. wsimpl.
  destruct (rem !! "origin") as [url|] eqn:Horigin; wsimpl.
  - repeat mstep.
    destruct inp as [|answer inp]; [shape_stops|].
    destruct (String.eqb (PyStr.lower answer) "y"); wsimpl.
    + shape_pushes.
    + shape_stops.
  - repeat mstep.
    destruct inp as [|answer inp]; [shape_stops|].
    destruct (String.eqb (PyStr.lower answer) "y"); wsimpl.
    + repeat mstep.
      destruct inp as [|line inp]; [shape_stops|].
      destruct (PyStr.strip line) as [|c url] eqn:Hurl; cbn [PyStr.truthy negb].
      * shape_stops.
      * repeat mstep. fold (add_cmd (String c url)). rewrite external_add. wsimpl.
        rewrite Horigin.
        destruct (returncode (orc (add_cmd (String c url))) =? 0) eqn:Hadd;
          wsimpl; rewrite ?Hadd; wsimpl.
        -- repeat mstep. shape_pushes.
        -- repeat mstep. shape_stops.
    + repeat mstep. shape_stops.
Qed.

(** ** The retry policy (C1, C2, C9) *)

(** What both variants share, read off the two shapes. *)
Section RetryPolicy.
Variable loop : M unit.
Hypothesis loop_shape : forall w, retry_shape (loop w).
Variables (w0 : World) (r : Run unit).
Hypothesis r_shape : setup_shape loop w0 r.



Lemma policy_sleeps :
  sleeps (trace r) `prefix_of` [2; 4; 8] /\
  (List.length (sleeps (trace r)) <= 3)%nat /\
  ~ In 16 (sleeps (trace r)) /\
  res r <> Raise IndexError.
Proof.
  assert (Hmain : sleeps (trace r) `prefix_of` [2; 4; 8] /\ res r <> Raise IndexError).
  { destruct r_shape as [pre w' -> Hs Hp | Hs Hp Hres].
    - rewrite res_prepend, trace_prepend, sleeps_app, Hs. cbn [app].
      destruct (loop_shape w') as [fails' ok' pre' E1 E2 E3 E4 E5 E6 E7
                                  |outs' final pre' mid E1 E2 E3 E4 E5 E6 E7].
      + rewrite E1, E6. split; [|discriminate].
        destruct fails' as [|? [|? [|? [|? ?]]]]; cbn in E5 |- *; try lia.
        * now exists [2; 4; 8].
        * now exists [4; 8].
        * now exists [8].
        * now exists [].
      + rewrite E1, E5. split; [now exists []|discriminate].
    - rewrite Hs. split; [now exists [2; 4; 8]|].
      destruct Hres as [-> | [-> _]]; discriminate. }
  destruct Hmain as [[k Hk] Hres].
  repeat split; [now exists k| | |done].
  - apply (f_equal (@List.length Z)) in Hk. rewrite length_app in Hk. cbn in Hk. lia.
  - intros Hin. assert (In 16 [2; 4; 8]) as Hin'.
    { rewrite Hk. apply in_or_app. now left. }
    cbn in Hin'. intuition discriminate.
Qed.

End RetryPolicy.







(** C9.  In every run of the remote-push routine (either variant) the
    durations slept are an initial part of [2,4,8]: at most three sleeps,
    never one of 16 seconds, and the index into the delay list is never
    out of range ([IndexError] is not raised). *)
Theorem sleeps_stay_within_first_three (w : World) :
  Forall (fun r : Run unit =>
            sleeps (trace r) `prefix_of` [2; 4; 8] /\
            (List.length (sleeps (trace r)) <= 3)%nat /\
            ~ In 16 (sleeps (trace r)) /\
            res r <> Raise IndexError)
         [Quick.setup_remote_and_push w; Full.setup_remote_and_push w].
Proof.
  constructor.
  { apply (policy_sleeps Quick.push_with_retry quick_retry_shape _ _ (quick_setup_shape w)). }
  constructor.
  { apply (policy_sleeps Full.push_with_retry full_retry_shape _ _ (full_setup_shape w)). }
  constructor.
Qed.

(** ** Declining, cancelling and failing to register (C5, C7) *)

Ltac setup_start :=
  mstep; mstep; fold get_url_cmd; rewrite external_get_url; wsimpl.

Lemma quick_setup_declined (w : World) (answer : string) (rest : list string) :
  stdin w = answer :: rest ->
  confirms answer = false ->
  Quick.setup_remote_and_push w =
  mkRun (Ok tt) (set_stdin rest w) (declined_events (remotes w !! "origin") answer).
Proof.
  destruct w as [inp tpl f rem ps orc]. cbn [stdin remotes].
  intros -> Hno. unfold confirms in Hno.
  unfold Quick.setup_remote_and_push. setup_start.
  destruct (rem !! "origin") as [url|]; wsimpl;
    repeat mstep; rewrite Hno; wsimpl; repeat mstep; reflexivity.
Qed.

Lemma full_setup_declined (w : World) (answer : string) (rest : list string) :
  stdin w = answer :: rest ->
  confirms answer = false ->
  Full.setup_remote_and_push w =
  mkRun (Ok tt) (set_stdin rest w) (declined_events (remotes w !! "origin") answer).
Proof.
  destruct w as [inp tpl f rem ps orc]. cbn [stdin remotes].
  intros -> Hno. unfold confirms in Hno.
  unfold Full.setup_remote_and_push. setup_start.
  destruct (rem !! "origin") as [url|]; wsimpl;
    repeat mstep; rewrite Hno; wsimpl; repeat mstep; reflexivity.
Qed.

Lemma quick_setup_confirmed_push (w : World) (answer url : string) (rest : list string) :
  stdin w = answer :: rest ->
  confirms answer = true ->
  remotes w !! "origin" = Some url ->
  Quick.setup_remote_and_push w =
  prepend (found_origin url ++ [EvInput push_prompt (Some answer)])
          (Quick.push_with_retry (set_stdin rest w)).
Proof.
  destruct w as [inp tpl f rem ps orc]. cbn [stdin remotes].
  intros -> Hyes Horigin. unfold confirms in Hyes.
  unfold Quick.setup_remote_and_push. setup_start. rewrite Horigin. wsimpl.
  repeat mstep. rewrite Hyes. wsimpl. flatten_prepend. reflexivity.
Qed.

Lemma full_setup_confirmed_push (w : World) (answer url : string) (rest : list string) :
  stdin w = answer :: rest ->
  confirms answer = true ->
  remotes w !! "origin" = Some url ->
  Full.setup_remote_and_push w =
  prepend (found_origin url ++ [EvInput push_prompt (Some answer)])
          (Full.push_with_retry (set_stdin rest w)).
Proof.
  destruct w as [inp tpl f rem ps orc]. cbn [stdin remotes].
  intros -> Hyes Horigin. unfold confirms in Hyes.
  unfold Full.setup_remote_and_push. setup_start. rewrite Horigin. wsimpl.
  repeat mstep. rewrite Hyes. wsimpl. flatten_prepend. reflexivity.
Qed.

Lemma quick_setup_confirmed_add (w : World) (answer : string) (rest : list string) :
  stdin w = answer :: rest ->
  confirms answer = true ->
  remotes w !! "origin" = None ->
  exists tl,
    trace (Quick.setup_remote_and_push w) =
    found_no_origin ++
    [EvInput add_prompt (Some answer); EvInput url_prompt (head rest)] ++ tl.
Proof.
  destruct w as [inp tpl f rem ps orc]. cbn [stdin remotes].
  intros -> Hyes Horigin. unfold confirms in Hyes.
  unfold Quick.setup_remote_and_push. setup_start. rewrite Horigin. wsimpl.
  repeat mstep. rewrite Hyes. wsimpl. mstep.
  destruct rest as [|line rest]; wsimpl.
  - exists []. reflexivity.
  - rewrite !trace_prepend. eexists. reflexivity.
Qed.

Lemma full_setup_confirmed_add (w : World) (answer : string) (rest : list string) :
  stdin w = answer :: rest ->
  confirms answer = true ->
  remotes w !! "origin" = None ->
  exists tl,
    trace (Full.setup_remote_and_push w) =
    found_no_origin ++
    [EvInput add_prompt (Some answer); EvInput url_prompt (head rest)] ++ tl.
Proof.
  destruct w as [inp tpl f rem ps orc]. cbn [stdin remotes].
  intros -> Hyes Horigin. unfold confirms in Hyes.
  unfold Full.setup_remote_and_push. setup_start. rewrite Horigin. wsimpl.
  repeat mstep. rewrite Hyes. wsimpl. mstep.
  destruct rest as [|line rest]; wsimpl.
  - exists []. reflexivity.
  - rewrite !trace_prepend. eexists. reflexivity.
Qed.

(** C5.  When the operator declines at either decision point (the push
    confirmation for an existing [origin], or the offer to add a remote
    when there is none), both variants return normally after that one
    question, the only command they have run is the query for the
    remote's URL, so no push was invoked and nothing was slept, and the
    remote table is what it was: without an [origin] before, without one
    after. *)
Theorem declining_leaves_remote_alone
    (w : World) (answer : string) (rest : list string) :
  stdin w = answer :: rest ->
  confirms answer = false ->
  Forall (fun r : Run unit =>
            res r = Ok tt /\
            inputs (trace r) =
              [(match remotes w !! "origin" with
                | Some _ => push_prompt
                | None => add_prompt
                end, Some answer)] /\
            runs (trace r) = [get_url_cmd] /\
            pushed (trace r) = [] /\
            sleeps (trace r) = [] /\
            remotes (world r) = remotes w /\
            pushes (world r) = pushes w /\
            (remotes w !! "origin" = None -> remotes (world r) !! "origin" = None))
         [Quick.setup_remote_and_push w; Full.setup_remote_and_push w].
Proof.
  intros Hin Hno.
  rewrite (quick_setup_declined w answer rest Hin Hno),
          (full_setup_declined w answer rest Hin Hno).
  assert (forall r : Run unit,
            r = mkRun (Ok tt) (set_stdin rest w)
                      (declined_events (remotes w !! "origin") answer) ->
            res r = Ok tt /\
            inputs (trace r) =
              [(match remotes w !! "origin" with
                | Some _ => push_prompt
                | None => add_prompt
                end, Some answer)] /\
            runs (trace r) = [get_url_cmd] /\
            pushed (trace r) = [] /\
            sleeps (trace r) = [] /\
            remotes (world r) = remotes w /\
            pushes (world r) = pushes w /\
            (remotes w !! "origin" = None -> remotes (world r) !! "origin" = None))
    as Hboth.
  { intros r ->. cbn [res trace world set_stdin remotes pushes].
    destruct (remotes w !! "origin") eqn:Horigin; repeat split; done. }
  constructor; [now apply Hboth|]. constructor; [now apply Hboth|]. constructor.
Qed.

Lemma declining_leaves_remote_alone_witness :
  let w := without_origin ["n"] [cp_ok] all_ok in
  Forall (fun r : Run unit =>
            res r = Ok tt /\
            inputs (trace r) =
              [(match remotes w !! "origin" with
                | Some _ => push_prompt
                | None => add_prompt
                end, Some "n")] /\
            runs (trace r) = [get_url_cmd] /\
            pushed (trace r) = [] /\
            sleeps (trace r) = [] /\
            remotes (world r) = remotes w /\
            pushes (world r) = pushes w /\
            (remotes w !! "origin" = None -> remotes (world r) !! "origin" = None))
         [Quick.setup_remote_and_push w; Full.setup_remote_and_push w].
Proof.
  intros w. apply (declining_leaves_remote_alone w "n" []); reflexivity.
Defined.



(** ** The yes/no prompts (C10) *)

Lemma lower_char_y (c : ascii) :
  PyStr.lower_char c = "y"%char -> c = "y"%char \/ c = "Y"%char.
Proof.
  destruct c as [[] [] [] [] [] [] [] []]; vm_compute; intros H;
    first [discriminate H | now left | now right].
Qed.

Lemma confirms_iff (answer : string) :
  confirms answer = true <-> answer = "y" \/ answer = "Y".
Proof.
  unfold confirms. split.
  - destruct answer as [|c [|c' t]]; cbn [PyStr.lower String.eqb].
    + discriminate.
    + destruct (Ascii.eqb_spec (PyStr.lower_char c) "y") as [Hc|]; [|discriminate].
      intros _. destruct (lower_char_y c Hc) as [-> | ->]; [now left|now right].
    + destruct (Ascii.eqb (PyStr.lower_char c) "y"); discriminate.
  - intros [-> | ->]; reflexivity.
Qed.

Lemma quick_main_declined (w : World) (answer : string) (rest : list string) :
  visible_names (fs w) <> [] ->
  stdin w = answer :: rest ->
  confirms answer = false ->
  Quick.main w =
  mkRun (Raise (SystemExit 0)) (set_stdin rest w)
        [EvPrint "⚠️  Folder not empty!"; EvInput "Continue? (y/n): " (Some answer)].
Proof.
  intros Hvis Hin Hno. unfold confirms in Hno. unfold Quick.main.
  rewrite bind_visible_entries. cbv beta.
  rewrite (bool_decide_eq_false_2 _ Hvis). cbn [negb].
  rewrite !bind_assoc, bind_print, !bind_assoc, bind_input, Hin. cbv beta.
  rewrite Hno. cbn [negb].
  now rewrite bind_sys_exit.
Qed.

Lemma quick_main_confirmed (w : World) (answer : string) (rest : list string) :
  visible_names (fs w) <> [] ->
  stdin w = answer :: rest ->
  confirms answer = true ->
  exists tl,
    trace (Quick.main w) =
    [EvPrint "⚠️  Folder not empty!"; EvInput "Continue? (y/n): " (Some answer);
     EvPrint ("🚀 Initializing project..." +:+ PyStr.nl)] ++ tl.
Proof.
  intros Hvis Hin Hyes. unfold confirms in Hyes. unfold Quick.main.
  rewrite bind_visible_entries. cbv beta.
  rewrite (bool_decide_eq_false_2 _ Hvis). cbn [negb].
  rewrite !bind_assoc, bind_print, !bind_assoc, bind_input, Hin. cbv beta.
  rewrite Hyes. cbn [negb].
  rewrite bind_ret, bind_print. rewrite !trace_prepend. eexists. reflexivity.
Qed.

Lemma full_run_declined (self : Full.ProjectInitializer) (language : string)
    (readme explain : bool) (w : World) (answer : string) (rest : list string) :
  visible_names (fs w) <> [] ->
  stdin w = answer :: rest ->
  confirms answer = false ->
  Full.run self language readme explain w =
  mkRun (Raise (SystemExit 0)) (set_stdin rest w)
        [EvPrint ("🚀 Initializing project in: " +:+ Full.project_path self);
         EvPrint ("📁 Templates directory: " +:+ Full.templates_dir self +:+ PyStr.nl);
         EvInput "⚠️  Folder is not empty. Continue anyway? (y/n): " (Some answer);
         EvPrint "Aborting..."].
Proof.
  intros Hvis Hin Hno. unfold confirms in Hno. unfold Full.run.
  rewrite bind_print, bind_print. unfold Full.check_empty_folder.
  rewrite bind_assoc, bind_visible_entries, bind_ret. cbv beta.
  assert (Nat.eqb (List.length (visible_names (fs w))) 0 = false) as ->.
  { destruct (visible_names (fs w)); [done|reflexivity]. }
  cbn [negb].
  rewrite !bind_assoc, bind_input, Hin. cbv beta. rewrite Hno. cbn [negb].
  rewrite !bind_assoc, bind_print, bind_sys_exit. reflexivity.
Qed.

Lemma full_run_confirmed (self : Full.ProjectInitializer) (language : string)
    (readme explain : bool) (w : World) (answer : string) (rest : list string) :
  visible_names (fs w) <> [] ->
  stdin w = answer :: rest ->
  confirms answer = true ->
  exists tl,
    trace (Full.run self language readme explain w) =
    [EvPrint ("🚀 Initializing project in: " +:+ Full.project_path self);
     EvPrint ("📁 Templates directory: " +:+ Full.templates_dir self +:+ PyStr.nl);
     EvInput "⚠️  Folder is not empty. Continue anyway? (y/n): " (Some answer);
     EvPrint "🔧 Initializing git repository..."] ++ tl.
Proof.
  intros Hvis Hin Hyes. unfold confirms in Hyes. unfold Full.run.
  rewrite bind_print, bind_print. unfold Full.check_empty_folder.
  rewrite bind_assoc, bind_visible_entries, bind_ret. cbv beta.
  assert (Nat.eqb (List.length (visible_names (fs w))) 0 = false) as ->.
  { destruct (visible_names (fs w)); [done|reflexivity]. }
  cbn [negb].
  rewrite !bind_assoc, bind_input, Hin. cbv beta. rewrite Hyes. cbn [negb].
  rewrite bind_ret. unfold Full.init_git. rewrite !bind_assoc, bind_print.
  rewrite !trace_prepend. eexists. reflexivity.
Qed.

(** C10.  Only an answer that is ['y'] once lowercased, that is [y] or
    [Y], counts as a yes; [yes] does not.  At the push confirmation and
    at the offer to add a remote any other answer ends the routine with
    the refusal message and no further command, while [y] leads on to the
    retry loop, respectively to the question for the URL.  At the
    non-empty-folder question any other answer ends the run by
    [sys.exit(0)] before any command, while [y] lets the initialisation
    start. *)
Theorem only_y_counts_as_yes :
  (forall answer, confirms answer = true <-> answer = "y" \/ answer = "Y") /\
  confirms "yes" = false /\
  (forall (w : World) (answer : string) (rest : list string),
     stdin w = answer :: rest ->
     (confirms answer = false ->
      Quick.setup_remote_and_push w =
        mkRun (Ok tt) (set_stdin rest w) (declined_events (remotes w !! "origin") answer) /\
      Full.setup_remote_and_push w =
        mkRun (Ok tt) (set_stdin rest w) (declined_events (remotes w !! "origin") answer))
     /\
     (confirms answer = true ->
      match remotes w !! "origin" with
      | Some url =>
          Quick.setup_remote_and_push w =
            prepend (found_origin url ++ [EvInput push_prompt (Some answer)])
                    (Quick.push_with_retry (set_stdin rest w)) /\
          Full.setup_remote_and_push w =
            prepend (found_origin url ++ [EvInput push_prompt (Some answer)])
                    (Full.push_with_retry (set_stdin rest w))
      | None =>
          (exists tl, trace (Quick.setup_remote_and_push w) =
             found_no_origin ++
             [EvInput add_prompt (Some answer); EvInput url_prompt (head rest)] ++ tl) /\
          (exists tl, trace (Full.setup_remote_and_push w) =
             found_no_origin ++
             [EvInput add_prompt (Some answer); EvInput url_prompt (head rest)] ++ tl)
      end)
     /\
     (visible_names (fs w) <> [] ->
      (confirms answer = false ->
       res (Quick.main w) = Raise (SystemExit 0) /\
       trace (Quick.main w) =
         [EvPrint "⚠️  Folder not empty!"; EvInput "Continue? (y/n): " (Some answer)] /\
       forall self language readme explain,
         res (Full.run self language readme explain w) = Raise (SystemExit 0) /\
         runs (trace (Full.run self language readme explain w)) = [] /\
         inputs (trace (Full.run self language readme explain w)) =
           [("⚠️  Folder is not empty. Continue anyway? (y/n): ", Some answer)])
      /\
      (confirms answer = true ->
       (exists tl, trace (Quick.main w) =
          [EvPrint "⚠️  Folder not empty!"; EvInput "Continue? (y/n): " (Some answer);
           EvPrint ("🚀 Initializing project..." +:+ PyStr.nl)] ++ tl) /\
       forall self language readme explain,
         exists tl, trace (Full.run self language readme explain w) =
           [EvPrint ("🚀 Initializing project in: " +:+ Full.project_path self);
            EvPrint ("📁 Templates directory: " +:+ Full.templates_dir self +:+ PyStr.nl);
            EvInput "⚠️  Folder is not empty. Continue anyway? (y/n): " (Some answer);
            EvPrint "🔧 Initializing git repository..."] ++ tl))).
Proof.
  split; [exact confirms_iff|]. split; [reflexivity|].
  intros w answer rest Hin. split; [|split].
  - intros Hno. split.
    + exact (quick_setup_declined w answer rest Hin Hno).
    + exact (full_setup_declined w answer rest Hin Hno).
  - intros Hyes. destruct (remotes w !! "origin") as [url|] eqn:Horigin.
    + split.
      * exact (quick_setup_confirmed_push w answer url rest Hin Hyes Horigin).
      * exact (full_setup_confirmed_push w answer url rest Hin Hyes Horigin).
    + split.
      * exact (quick_setup_confirmed_add w answer rest Hin Hyes Horigin).
      * exact (full_setup_confirmed_add w answer rest Hin Hyes Horigin).
  - intros Hvis. split.
    + intros Hno. rewrite (quick_main_declined w answer rest Hvis Hin Hno).
      split; [reflexivity|]. split; [reflexivity|].
      intros self language readme explain.
      rewrite (full_run_declined self language readme explain w answer rest Hvis Hin Hno).
      repeat split; reflexivity.
    + intros Hyes. split.
      * exact (quick_main_confirmed w answer rest Hvis Hin Hyes).
      * intros self language readme explain.
        exact (full_run_confirmed self language readme explain w answer rest Hvis Hin Hyes).
Qed.

(** ** Template substitution (C4) *)

Section Replace.
Import PyStr.

Lemma contains_unfold (sub s : string) :
  contains sub s =
  (startswith sub s ||
   match s with EmptyString => false | String _ t => contains sub t end)%bool.
Proof. now destruct s. Qed.






Lemma not_contains_tail (sub : string) (c : ascii) (t : string) :
  contains sub (String c t) = false ->
  startswith sub (String c t) = false /\ contains sub t = false.
Proof. rewrite contains_unfold. apply orb_false_elim. Qed.


Variables old new : string.



Lemma replace_from_no_match (c : ascii) (t : string) :
  startswith old (String c t) = false ->
  replace_from old new 0 (String c t) = String c (replace_from old new 0 t).
Proof. intros H. cbn [replace_from]. now rewrite H. Qed.


(** Without an occurrence of [old] the text is returned as it is. *)
Lemma replace_from_absent (s : string) :
  contains old s = false -> replace_from old new 0 s = s.
Proof.
  induction s as [|c t IH]; intros H; [reflexivity|].
  apply not_contains_tail in H as [Hm Ht].
  rewrite (replace_from_no_match c t Hm). now rewrite IH.
Qed.

End Replace.

Section Placeholder.
Import PyStr.

(** The replacement value: free of braces and not a piece of the key. *)
Variables key value : string.
Hypothesis value_no_open : contains "{" value = false.
Hypothesis value_no_close : contains "}" value = false.
Hypothesis value_not_in_key : contains value key = false.

Let token : string := String "{" (key +:+ "}").
Let R : string -> string := replace_from token value 0.







End Placeholder.







(** ** The ignore-file template (C6) *)

(** C6.  For a language tag without a template of its own,
    [create_gitignore] (both variants) replaces the template name by the
    generic one and calls [copy_template] with it, once; there is no
    further fallback: when the generic template is absent as well, the
    call ends with the warning of [copy_template] and writes nothing. *)
Theorem gitignore_falls_back_once (w : World) (language : string) :
  templates w !! ("gitignore." +:+ language) = None ->
  Full.create_gitignore language w =
    prepend [EvPrint ("📝 Creating .gitignore for " +:+ language +:+ "...");
             EvPrint ("⚠️  Template for " +:+ language +:+ " not found, using generic...")]
            (Full.copy_template "gitignore.generic" ".gitignore" None w) /\
  Tui.create_gitignore language w =
    prepend [EvStatus ("Creating .gitignore for " +:+ language +:+ "...")]
            (Tui.copy_template "gitignore.generic" ".gitignore" None w) /\
  (templates w !! "gitignore.generic" = None ->
   Full.create_gitignore language w =
     mkRun (Ok tt) w
       [EvPrint ("📝 Creating .gitignore for " +:+ language +:+ "...");
        EvPrint ("⚠️  Template for " +:+ language +:+ " not found, using generic...");
        EvPrint "⚠️  Template not found: gitignore.generic"] /\
   Tui.create_gitignore language w =
     mkRun (Ok tt) w
       [EvStatus ("Creating .gitignore for " +:+ language +:+ "...");
        EvPrint "⚠️  Template not found: gitignore.generic"]).
Proof.
  intros Hmissing.
  assert (Full.create_gitignore language w =
          prepend [EvPrint ("📝 Creating .gitignore for " +:+ language +:+ "...");
                   EvPrint ("⚠️  Template for " +:+ language +:+ " not found, using generic...")]
                  (Full.copy_template "gitignore.generic" ".gitignore" None w)) as Hfull.
  { unfold Full.create_gitignore.
    rewrite bind_print, bind_template_exists, Hmissing.
    rewrite bool_decide_eq_false_2 by (apply is_Some_None). cbn [negb].
    rewrite !bind_assoc, bind_print, bind_ret. now rewrite prepend_prepend. }
  assert (Tui.create_gitignore language w =
          prepend [EvStatus ("Creating .gitignore for " +:+ language +:+ "...")]
                  (Tui.copy_template "gitignore.generic" ".gitignore" None w)) as Htui.
  { unfold Tui.create_gitignore, Tui.with_status.
    rewrite bind_template_exists, Hmissing.
    rewrite bool_decide_eq_false_2 by (apply is_Some_None). reflexivity. }
  split; [exact Hfull|]. split; [exact Htui|].
  intros Hgeneric. rewrite Hfull, Htui.
  unfold Full.copy_template, Tui.copy_template, Tui.console_print.
  rewrite !bind_template_exists, Hgeneric.
  rewrite bool_decide_eq_false_2 by (apply is_Some_None). cbn [negb].
  split; reflexivity.
Qed.

Lemma gitignore_falls_back_once_witness :
  Full.create_gitignore "unknown_language" fresh_project =
    prepend [EvPrint "📝 Creating .gitignore for unknown_language...";
             EvPrint "⚠️  Template for unknown_language not found, using generic..."]
            (Full.copy_template "gitignore.generic" ".gitignore" None fresh_project) /\
  Tui.create_gitignore "unknown_language" fresh_project =
    mkRun (Ok tt) fresh_project
       [EvStatus "Creating .gitignore for unknown_language...";
        EvPrint "⚠️  Template not found: gitignore.generic"].
Proof.
  destruct (gitignore_falls_back_once fresh_project "unknown_language")
    as (Hfull & _ & Hgeneric); [reflexivity|].
  split; [exact Hfull|]. apply Hgeneric. reflexivity.
Defined.

(** ** The initial commit and the hook (C8) *)

Section RunsSat.
Variable P : list string -> Prop.

Lemma runs_sat_quiet {A} (m : M A) :
  (forall w, runs (trace (m w)) = []) -> runs_sat P m.
Proof. intros H w. rewrite H. constructor. Qed.

Lemma runs_sat_ret {A} (a : A) : runs_sat P (ret a).
Proof. now apply runs_sat_quiet. Qed.

Lemma runs_sat_raise {A} (e : Exn) : runs_sat P (@raise A e).
Proof. now apply runs_sat_quiet. Qed.

Lemma runs_sat_sys_exit {A} (code : Z) : runs_sat P (@sys_exit A code).
Proof. now apply runs_sat_quiet. Qed.

Lemma runs_sat_print (s : string) : runs_sat P (print s).
Proof. now apply runs_sat_quiet. Qed.

Lemma runs_sat_sleep (d : Z) : runs_sat P (sleep d).
Proof. now apply runs_sat_quiet. Qed.

Lemma runs_sat_input (p : string) : runs_sat P (input p).
Proof. apply runs_sat_quiet. intros w. unfold input. now destruct (stdin w). Qed.

Lemma runs_sat_path_exists (p : string) : runs_sat P (path_exists p).
Proof. now apply runs_sat_quiet. Qed.

Lemma runs_sat_template_exists (p : string) : runs_sat P (template_exists p).
Proof. now apply runs_sat_quiet. Qed.

Lemma runs_sat_visible_entries : runs_sat P visible_entries.
Proof. now apply runs_sat_quiet. Qed.

Lemma runs_sat_template_read_text (p : string) : runs_sat P (template_read_text p).
Proof.
  apply runs_sat_quiet. intros w. unfold template_read_text.
  now destruct (templates w !! p).
Qed.

Lemma runs_sat_write_text (p c : string) : runs_sat P (write_text p c).
Proof.
  apply runs_sat_quiet. intros w. unfold write_text.
  destruct (parent_error p w); [reflexivity|].
  now destruct (fs w !! p) as [[|? ?]|].
Qed.

Lemma runs_sat_mkdir (p : string) : runs_sat P (mkdir_exist_ok p).
Proof.
  apply runs_sat_quiet. intros w. unfold mkdir_exist_ok.
  destruct (fs w !! p) as [[|? ?]|]; try reflexivity.
  now destruct (parent_error p w).
Qed.

Lemma runs_sat_chmod (p : string) (mode : Z) : runs_sat P (chmod p mode).
Proof.
  apply runs_sat_quiet. intros w. unfold chmod.
  now destruct (fs w !! p) as [[|? ?]|].
Qed.

Lemma runs_sat_subprocess_run (cmd : list string) (check : bool) :
  P cmd -> runs_sat P (subprocess_run cmd check).
Proof.
  intros H w. unfold subprocess_run. destruct (external cmd w) as [cp w1].
  destruct (check && negb (returncode cp =? 0))%bool; cbn; now repeat constructor.
Qed.

Lemma runs_sat_bind {A B} (m : M A) (f : A -> M B) :
  runs_sat P m -> (forall a, runs_sat P (f a)) -> runs_sat P (bind m f).
Proof.
  intros Hm Hf w. unfold bind. specialize (Hm w).
  destruct (m w) as [[a|e] w1 t1]; cbn in *; [|exact Hm].
  rewrite trace_prepend, runs_app. apply Forall_app. split; [exact Hm|apply Hf].
Qed.

Lemma runs_sat_try {A} (m : M A) (h : list string -> Z -> string -> M A) :
  runs_sat P m -> (forall c rc e, runs_sat P (h c rc e)) ->
  runs_sat P (try_except_cpe m h).
Proof.
  intros Hm Hh w. unfold try_except_cpe. specialize (Hm w).
  destruct (m w) as [[a|[]] w1 t1]; cbn in *; try exact Hm.
  rewrite trace_prepend, runs_app. apply Forall_app. split; [exact Hm|apply Hh].
Qed.

Lemma runs_sat_for_each {X} (xs : list X) (body : X -> M Flow) :
  (forall x, runs_sat P (body x)) -> runs_sat P (for_each xs body).
Proof.
  intros Hbody. induction xs as [|x xs IH]; cbn [for_each].
  - apply runs_sat_ret.
  - apply runs_sat_bind; [apply Hbody|]. intros [|]; [exact IH|apply runs_sat_ret].
Qed.

End RunsSat.

Ltac runs_sat_step :=
  first
    [ apply runs_sat_bind; [|intros ?]
    | apply runs_sat_ret | apply runs_sat_raise | apply runs_sat_sys_exit
    | apply runs_sat_print | apply runs_sat_sleep | apply runs_sat_input
    | apply runs_sat_path_exists | apply runs_sat_template_exists
    | apply runs_sat_visible_entries | apply runs_sat_template_read_text
    | apply runs_sat_write_text | apply runs_sat_mkdir | apply runs_sat_chmod
    | apply runs_sat_subprocess_run; reflexivity
    | apply runs_sat_try; [|intros ? ? ?]
    | apply runs_sat_for_each; intros ?
    | match goal with
      | |- runs_sat _ (match ?x with _ => _ end) => destruct x
      end ].

Lemma commits_all (Q : list string -> bool) (tr : list Event) :
  Forall (fun cmd => implb (is_commit cmd) (Q cmd) = true) (runs tr) ->
  Forall (fun cmd => Q cmd = true) (commits tr).
Proof.
  unfold commits. induction (runs tr) as [|cmd l IH]; intros H; cbn [List.filter].
  - constructor.
  - inversion H as [|? ? Hcmd Hl]; subst.
    destruct (is_commit cmd); [|now apply IH].
    constructor; [exact Hcmd|now apply IH].
Qed.

Lemma quick_setup_runs : runs_sat commit_bypasses Quick.setup_remote_and_push.
Proof.
  unfold Quick.setup_remote_and_push, Quick.push_with_retry, Quick.run.
  repeat runs_sat_step.
Qed.

Lemma quick_main_runs : runs_sat commit_bypasses Quick.main.
Proof.
  pose proof quick_setup_runs as Hsetup.
  unfold Quick.main, Quick.load_template, Quick.check_coderabbit,
    Quick.print_install_instructions, Quick.run.
  repeat first [exact Hsetup | runs_sat_step].
Qed.

Lemma quick2_main_runs : runs_sat commit_verifies QuickV2.main.
Proof.
  unfold QuickV2.main, QuickV2.load_template, QuickV2.check_coderabbit,
    QuickV2.print_install_instructions, QuickV2.run.
  repeat runs_sat_step.
Qed.

Lemma full_setup_runs : runs_sat commit_bypasses Full.setup_remote_and_push.
Proof.
  unfold Full.setup_remote_and_push, Full.push_with_retry, Full.run_command.
  repeat runs_sat_step.
Qed.

Lemma full_run_runs (self : Full.ProjectInitializer) (language : string)
    (readme explain : bool) :
  runs_sat commit_bypasses (Full.run self language readme explain).
Proof.
  pose proof full_setup_runs as Hsetup.
  unfold Full.run, Full.check_empty_folder, Full.init_git, Full.create_gitignore,
    Full.create_git_attributes, Full.setup_coderabbit_cli, Full.setup_precommit_hook,
    Full.create_readme, Full.check_git_config, Full.print_workflow_explanation,
    Full.check_coderabbit_installed, Full.print_coderabbit_install_instructions,
    Full.copy_template, Full.run_command.
  repeat first [exact Hsetup | runs_sat_step].
Qed.

(** C8.  The front ends differ in whether the initial commit bypasses the
    pre-commit hook they have just installed.  Every commit the scripted
    variant and the quick variant make carries [--no-verify]; no commit
    the second quick variant makes does.  In a fresh project with a
    configured git user each of the three makes exactly one commit. *)
Theorem initial_commit_hook_policy :
  (forall w, Forall (fun cmd => bypasses_hook cmd = true) (commits (trace (Quick.main w)))) /\
  (forall self language readme explain w,
     Forall (fun cmd => bypasses_hook cmd = true)
            (commits (trace (Full.run self language readme explain w)))) /\
  (forall w, Forall (fun cmd => bypasses_hook cmd = false)
                    (commits (trace (QuickV2.main w)))) /\
  commits (trace (Quick.main fresh_project)) =
    [["git"; "commit"; "--no-verify"; "-m";
      "Initial commit: Project setup with CodeRabbit CLI"]] /\
  commits (trace (Full.run sample_initializer "python" true true
                           fresh_project_with_templates)) =
    [["git"; "commit"; "--no-verify"; "-m";
      "Initial commit: Project setup with CodeRabbit CLI"]] /\
  commits (trace (QuickV2.main fresh_project)) =
    [["git"; "commit"; "-m"; "Initial commit"]].
Proof.
  split; [|split; [|split; [|split; [|split]]]].
  - intros w. apply commits_all, quick_main_runs.
  - intros self language readme explain w. apply commits_all, full_run_runs.
  - intros w.
    assert (Forall (fun cmd => negb (bypasses_hook cmd) = true)
                   (commits (trace (QuickV2.main w)))) as H.
    { apply (commits_all (fun cmd => negb (bypasses_hook cmd))), quick2_main_runs. }
    eapply Forall_impl; [exact H|]. intros cmd Hcmd. now apply negb_true_iff.
  - vm_compute. reflexivity.
  - vm_compute. reflexivity.
  - vm_compute. reflexivity.
Qed.

(** ** Failures that stop the run and failures that do not (C3) *)




























(** The steps that change the project directory. *)

Section Steps.
Variable T : gmap string string -> Prop.

Lemma ready_hooks_ready (w : World) : ready_hooks T w -> ready T w.
Proof. now intros [H _]. Qed.










End Steps.




(** From a fresh directory to the state after [git init]. *)




Lemma external_init (w : World) :
  external init_cmd w =
  if returncode (oracle w init_cmd) =? 0
  then (oracle w init_cmd,
        match fs w !! ".git" with
        | Some _ => w
        | None => set_fs (<[".git" := Dir]> (fs w)) w
        end)
  else (oracle w init_cmd, w).
Proof. reflexivity. Qed.


Section Fresh.
Variable T : gmap string string -> Prop.











End Fresh.





(** The scripted variant runs to its end from a fresh directory when the
    templates directory holds the hook script. *)

Section FullSteps.
Variable T : gmap string string -> Prop.










End FullSteps.


(** A failing [git init] ends both variants. *)







(** * Further properties of the scripts *)

(** ** What a run leaves alone *)

Section Keeps.
Variable I : World -> Prop.

Lemma keeps_still {A} (m : M A) : (forall w, world (m w) = w) -> keeps I m.
Proof. intros H w Hw. now rewrite H. Qed.

Lemma keeps_ret {A} (a : A) : keeps I (ret a).
Proof. now apply keeps_still. Qed.

Lemma keeps_raise {A} (e : Exn) : keeps I (@raise A e).
Proof. now apply keeps_still. Qed.

Lemma keeps_sys_exit {A} (code : Z) : keeps I (@sys_exit A code).
Proof. now apply keeps_still. Qed.

Lemma keeps_print (s : string) : keeps I (print s).
Proof. now apply keeps_still. Qed.

Lemma keeps_sleep (d : Z) : keeps I (sleep d).
Proof. now apply keeps_still. Qed.

Lemma keeps_path_exists (p : string) : keeps I (path_exists p).
Proof. now apply keeps_still. Qed.

Lemma keeps_template_exists (p : string) : keeps I (template_exists p).
Proof. now apply keeps_still. Qed.

Lemma keeps_visible_entries : keeps I visible_entries.
Proof. now apply keeps_still. Qed.

Lemma keeps_template_read_text (p : string) : keeps I (template_read_text p).
Proof.
  apply keeps_still. intros w. unfold template_read_text.
  now destruct (templates w !! p).
Qed.

Lemma keeps_input (p : string) : stdin_blind I -> keeps I (input p).
Proof.
  intros H w Hw. unfold input. destruct (stdin w) as [|line rest]; [exact Hw|].
  now apply H.
Qed.

Lemma keeps_write_text (p c : string) : allows_write I p -> keeps I (write_text p c).
Proof.
  intros H w Hw. unfold write_text.
  destruct (parent_error p w); [exact Hw|].
  destruct (fs w !! p) as [[|? ?]|]; [exact Hw|now apply H|now apply H].
Qed.

Lemma keeps_mkdir (p : string) : allows_write I p -> keeps I (mkdir_exist_ok p).
Proof.
  intros H w Hw. unfold mkdir_exist_ok.
  destruct (fs w !! p) as [[|? ?]|]; try exact Hw.
  destruct (parent_error p w); [exact Hw|now apply H].
Qed.

Lemma keeps_chmod (p : string) (mode : Z) : allows_write I p -> keeps I (chmod p mode).
Proof.
  intros H w Hw. unfold chmod.
  destruct (fs w !! p) as [[|? ?]|]; [exact Hw|now apply H|exact Hw].
Qed.

Lemma keeps_subprocess_run (cmd : list string) (check : bool) :
  ext_keeps I cmd -> keeps I (subprocess_run cmd check).
Proof.
  intros H w Hw. unfold subprocess_run. specialize (H w Hw).
  destruct (external cmd w) as [cp w1].
  now destruct (check && negb (returncode cp =? 0))%bool.
Qed.

Lemma keeps_bind {A B} (m : M A) (f : A -> M B) :
  keeps I m -> (forall a, keeps I (f a)) -> keeps I (bind m f).
Proof.
  intros Hm Hf w Hw. unfold bind. specialize (Hm w Hw).
  destruct (m w) as [[a|e] w1 t1]; cbn in *; [|exact Hm].
  rewrite world_prepend. now apply Hf.
Qed.

Lemma keeps_try {A} (m : M A) (h : list string -> Z -> string -> M A) :
  keeps I m -> (forall c rc e, keeps I (h c rc e)) -> keeps I (try_except_cpe m h).
Proof.
  intros Hm Hh w Hw. unfold try_except_cpe. specialize (Hm w Hw).
  destruct (m w) as [[a|[]] w1 t1]; cbn in *; try exact Hm.
  rewrite world_prepend. now apply Hh.
Qed.

Lemma keeps_for_each {X} (xs : list X) (body : X -> M Flow) :
  (forall x, keeps I (body x)) -> keeps I (for_each xs body).
Proof.
  intros Hbody. induction xs as [|x xs IH]; cbn [for_each].
  - apply keeps_ret.
  - apply keeps_bind; [apply Hbody|]. intros [|]; [exact IH|apply keeps_ret].
Qed.

Lemma keeps_with_status {A} (text : string) (m : M A) :
  keeps I m -> keeps I (Tui.with_status text m).
Proof. intros H w Hw. unfold Tui.with_status. rewrite world_prepend. now apply H. Qed.

End Keeps.

(** One step of a proof that a script keeps an invariant; [leaf] settles
    what the step asks of the invariant. *)
Ltac keeps_step leaf :=
  first
    [ apply keeps_bind; [|intros ?]
    | apply keeps_ret | apply keeps_raise | apply keeps_sys_exit
    | apply keeps_print | apply keeps_sleep
    | apply keeps_path_exists | apply keeps_template_exists
    | apply keeps_visible_entries | apply keeps_template_read_text
    | apply keeps_input; leaf
    | apply keeps_write_text; leaf
    | apply keeps_mkdir; leaf
    | apply keeps_chmod; leaf
    | apply keeps_subprocess_run; leaf
    | apply keeps_try; [|intros ? ? ?]
    | apply keeps_for_each; intros ?
    | apply keeps_with_status
    | match goal with
      | |- keeps _ (match ?x with _ => _ end) => destruct x
      end ].

(** *** The footprint in the project directory *)

Lemma same_outside_refl (S : list string) (w : World) : same_outside S w w.
Proof. now split. Qed.


Lemma same_outside_write (S : list string) (w0 : World) (p : string) :
  p ∈ S -> allows_write (same_outside S w0) p.
Proof.
  intros Hp n w [Htpl Hfs]. split; [exact Htpl|].
  intros q Hq. cbn [fs set_fs]. rewrite lookup_insert_ne; [now apply Hfs|].
  intros ->. now apply Hq.
Qed.












(** *** The remote table *)

Ltac off_line_leaf :=
  first
    [ intros ? ? H; exact H
    | intros ? H; rewrite external_init; repeat case_match; exact H ].

Lemma quick2_main_same_remote (w0 : World) : keeps (same_remote w0) QuickV2.main.
Proof.
  unfold QuickV2.main, QuickV2.load_template, QuickV2.check_coderabbit,
    QuickV2.print_install_instructions, QuickV2.run.
  repeat keeps_step off_line_leaf.
Qed.

Lemma quick2_main_off_line : runs_sat off_line QuickV2.main.
Proof.
  unfold QuickV2.main, QuickV2.load_template, QuickV2.check_coderabbit,
    QuickV2.print_install_instructions, QuickV2.run.
  repeat first [apply runs_sat_subprocess_run; split; reflexivity | runs_sat_step].
Qed.

(** X3.  The second version of the quick script never deals with a
    remote: in every run, however it ends, it runs no [git remote] and no
    [git push] command, and the remote table and the network are left as
    they were. *)
Theorem quick2_never_contacts_remote (w : World) :
  Forall off_line (runs (trace (QuickV2.main w))) /\
  pushed (trace (QuickV2.main w)) = [] /\
  remotes (world (QuickV2.main w)) = remotes w /\
  pushes (world (QuickV2.main w)) = pushes w.
Proof.
  pose proof (quick2_main_off_line w) as Hruns.
  destruct (quick2_main_same_remote w w (conj eq_refl eq_refl)) as [Hrem Hpush].
  repeat split; try assumption.
  unfold pushed, runs in *.
  induction (trace (QuickV2.main w)) as [|e tr IH]; [reflexivity|].
  cbn [omap list_omap] in *. destruct e as [| | |cmd cp|]; try (now apply IH).
  cbn in Hruns. inversion Hruns as [|? ? [_ Hcmd] Htl]; subst.
  destruct (bool_decide (cmd = push_cmd)) eqn:Hpc.
  - apply bool_decide_eq_true_1 in Hpc. subst cmd. discriminate Hcmd.
  - now apply IH.
Qed.

Section RemotesKept.
Variable R : gmap string string.
Variable url : string.
Hypothesis Horigin : R !! "origin" = Some url.

Lemma remotes_kept_add (u : string) :
  ext_keeps (remotes_are R) ["git"; "remote"; "add"; "origin"; u].
Proof.
  intros w Hw. pose proof (external_add u w) as E. unfold add_cmd in E.
  rewrite E. unfold remotes_are in Hw. rewrite Hw, Horigin. exact Hw.
Qed.

Lemma remotes_kept_other (cmd : list string) :
  args_after ["git"; "remote"; "add"] cmd = None ->
  ext_keeps (remotes_are R) cmd.
Proof.
  intros Hcmd w Hw. unfold external. rewrite Hcmd.
  repeat case_match; exact Hw.
Qed.

End RemotesKept.

Ltac remotes_leaf H :=
  first
    [ intros ? ? Hw; exact Hw
    | apply (remotes_kept_add _ _ H)
    | apply remotes_kept_other; reflexivity ].

Lemma quick_setup_keeps_remotes (R : gmap string string) (url : string) :
  R !! "origin" = Some url -> keeps (remotes_are R) Quick.setup_remote_and_push.
Proof.
  intros HR.
  unfold Quick.setup_remote_and_push, Quick.push_with_retry, Quick.run.
  repeat keeps_step ltac:(remotes_leaf HR).
Qed.

Lemma full_setup_keeps_remotes (R : gmap string string) (url : string) :
  R !! "origin" = Some url -> keeps (remotes_are R) Full.setup_remote_and_push.
Proof.
  intros HR.
  unfold Full.setup_remote_and_push, Full.push_with_retry, Full.run_command.
  repeat keeps_step ltac:(remotes_leaf HR).
Qed.

Lemma quick_main_keeps_remotes (R : gmap string string) (url : string) :
  R !! "origin" = Some url -> keeps (remotes_are R) Quick.main.
Proof.
  intros HR. pose proof (quick_setup_keeps_remotes R url HR) as Hsetup.
  unfold Quick.main, Quick.load_template, Quick.check_coderabbit,
    Quick.print_install_instructions, Quick.run.
  repeat first [exact Hsetup | keeps_step ltac:(remotes_leaf HR)].
Qed.

Lemma full_run_keeps_remotes (R : gmap string string) (url : string)
    (self : Full.ProjectInitializer) (language : string) (readme explain : bool) :
  R !! "origin" = Some url ->
  keeps (remotes_are R) (Full.run self language readme explain).
Proof.
  intros HR. pose proof (full_setup_keeps_remotes R url HR) as Hsetup.
  unfold Full.run, Full.check_empty_folder, Full.init_git, Full.create_gitignore,
    Full.create_git_attributes, Full.setup_coderabbit_cli, Full.setup_precommit_hook,
    Full.create_readme, Full.check_git_config, Full.print_workflow_explanation,
    Full.check_coderabbit_installed, Full.print_coderabbit_install_instructions,
    Full.copy_template, Full.run_command.
  repeat first [exact Hsetup | keeps_step ltac:(remotes_leaf HR)].
Qed.

(** X4.  A remote [origin] that is configured already is never replaced:
    whatever the operator answers and however the run ends, the remote
    routine, the quick script and the scripted variant leave the remote
    table exactly as it was. *)
Theorem existing_origin_is_kept (w : World) (url : string) :
  remotes w !! "origin" = Some url ->
  remotes (world (Quick.setup_remote_and_push w)) = remotes w /\
  remotes (world (Full.setup_remote_and_push w)) = remotes w /\
  remotes (world (Quick.main w)) = remotes w /\
  forall self language readme explain,
    remotes (world (Full.run self language readme explain w)) = remotes w.
Proof.
  intros HR. repeat split.
  - exact (quick_setup_keeps_remotes _ url HR w eq_refl).
  - exact (full_setup_keeps_remotes _ url HR w eq_refl).
  - exact (quick_main_keeps_remotes _ url HR w eq_refl).
  - intros self language readme explain.
    exact (full_run_keeps_remotes _ url self language readme explain HR w eq_refl).
Qed.

Lemma existing_origin_is_kept_witness :
  let w := with_origin ["y"] [cp_ok] in
  remotes (world (Quick.setup_remote_and_push w)) = remotes w /\
  remotes (world (Full.setup_remote_and_push w)) = remotes w /\
  remotes (world (Quick.main w)) = remotes w /\
  forall self language readme explain,
    remotes (world (Full.run self language readme explain w)) = remotes w.
Proof.
  exact (existing_origin_is_kept (with_origin ["y"] [cp_ok])
           "git@github.com:user/repo.git" eq_refl).
Defined.

(** ** The hook script of the scripted and of the TUI variant *)

Lemma world_eta (w : World) : set_fs (fs w) w = w.
Proof. now destruct w. Qed.

Lemma mkdir_hooks_run (w : World) :
  git_dir_ok (fs w) ->
  mkdir_exist_ok ".git/hooks" w =
  mkRun (Ok tt) (set_fs (<[".git/hooks" := Dir]> (fs w)) w) [].
Proof.
  intros [Hgit Hnofile]. unfold mkdir_exist_ok.
  destruct (fs w !! ".git/hooks") as [[|c m]|] eqn:Hhooks.
  - now rewrite (insert_id _ _ _ Hhooks), world_eta.
  - now destruct (Hnofile c m).
  - unfold parent_error. change (dirname ".git/hooks") with ".git". cbv beta iota.
    now rewrite Hgit.
Qed.

Lemma bind_mkdir_hooks {B} (f : unit -> M B) (w : World) :
  git_dir_ok (fs w) ->
  bind (mkdir_exist_ok ".git/hooks") f w =
  f tt (set_fs (<[".git/hooks" := Dir]> (fs w)) w).
Proof.
  intros Hw. unfold bind. rewrite (mkdir_hooks_run w Hw). apply prepend_nil.
Qed.


Lemma hook_not_hooks_dir : ".git/hooks" <> ".git/hooks/pre-commit".
Proof. discriminate. Qed.

Lemma full_hook_missing (w : World) :
  templates w !! "pre-commit" = None ->
  git_dir_ok (fs w) ->
  fs w !! ".git/hooks/pre-commit" = None ->
  Full.setup_precommit_hook w =
    mkRun (Raise (FileNotFoundError ".git/hooks/pre-commit"))
          (set_fs (<[".git/hooks" := Dir]> (fs w)) w)
          [EvPrint "🪝 Setting up pre-commit hook...";
           EvPrint "⚠️  Template not found: pre-commit"].
Proof.
  intros Htpl Hgit Hhook.
  unfold Full.setup_precommit_hook. rewrite bind_print.
  rewrite (bind_mkdir_hooks _ w Hgit).
  unfold Full.copy_template.
  rewrite bind_assoc, bind_template_exists. cbn [templates set_fs].
  rewrite Htpl, bool_decide_eq_false_2 by (apply is_Some_None). cbn [negb].
  rewrite bind_print. unfold bind, chmod. cbn [fs set_fs].
  rewrite lookup_insert_ne by exact hook_not_hooks_dir. now rewrite Hhook.
Qed.

Lemma tui_hook_missing (w : World) :
  templates w !! "pre-commit" = None ->
  git_dir_ok (fs w) ->
  fs w !! ".git/hooks/pre-commit" = None ->
  Tui.setup_precommit_hook w =
    mkRun (Raise (FileNotFoundError ".git/hooks/pre-commit"))
          (set_fs (<[".git/hooks" := Dir]> (fs w)) w)
          [EvStatus "Setting up pre-commit hook...";
           EvPrint "⚠️  Template not found: pre-commit"].
Proof.
  intros Htpl Hgit Hhook.
  unfold Tui.setup_precommit_hook, Tui.with_status.
  rewrite (bind_mkdir_hooks _ w Hgit).
  unfold Tui.copy_template, Tui.console_print.
  rewrite bind_assoc, bind_template_exists. cbn [templates set_fs].
  rewrite Htpl, bool_decide_eq_false_2 by (apply is_Some_None). cbn [negb].
  unfold bind at 1. cbn [print]. unfold print. cbv beta iota.
  unfold chmod. cbn [fs set_fs].
  rewrite lookup_insert_ne by exact hook_not_hooks_dir. rewrite Hhook. reflexivity.
Qed.

(** X5.  The scripted and the TUI variant set the hook up in three steps
    and apply the last one blindly: when the templates directory holds no
    [pre-commit], the method warns that the template was not found and
    then fails on [chmod] with [FileNotFoundError], having created the
    hooks directory only. *)
Theorem missing_hook_template_raises (w : World) :
  templates w !! "pre-commit" = None ->
  git_dir_ok (fs w) ->
  fs w !! ".git/hooks/pre-commit" = None ->
  Full.setup_precommit_hook w =
    mkRun (Raise (FileNotFoundError ".git/hooks/pre-commit"))
          (set_fs (<[".git/hooks" := Dir]> (fs w)) w)
          [EvPrint "🪝 Setting up pre-commit hook...";
           EvPrint "⚠️  Template not found: pre-commit"] /\
  Tui.setup_precommit_hook w =
    mkRun (Raise (FileNotFoundError ".git/hooks/pre-commit"))
          (set_fs (<[".git/hooks" := Dir]> (fs w)) w)
          [EvStatus "Setting up pre-commit hook...";
           EvPrint "⚠️  Template not found: pre-commit"].
Proof.
  intros Htpl Hgit Hhook. split.
  - now apply full_hook_missing.
  - now apply tui_hook_missing.
Qed.

Lemma bare_repository_ok : git_dir_ok (fs bare_repository).
Proof. split; [reflexivity|]. intros c m. vm_compute. discriminate. Qed.

Lemma missing_hook_template_raises_witness :
  res (Full.setup_precommit_hook bare_repository) =
    Raise (FileNotFoundError ".git/hooks/pre-commit") /\
  res (Tui.setup_precommit_hook bare_repository) =
    Raise (FileNotFoundError ".git/hooks/pre-commit").
Proof.
  exact (conj
    (f_equal res (proj1 (missing_hook_template_raises bare_repository
                           eq_refl bare_repository_ok eq_refl)))
    (f_equal res (proj2 (missing_hook_template_raises bare_repository
                           eq_refl bare_repository_ok eq_refl)))).
Defined.









(** ** The initial commit of the TUI variant *)

Lemma tui_run_command (cmd : list string) (check : bool) :
  Tui.run_command cmd check = Full.run_command cmd check.
Proof. reflexivity. Qed.

Lemma tui_commit_runs : runs_sat commit_verifies Tui.create_initial_commit.
Proof.
  intros w. unfold Tui.create_initial_commit, Tui.with_status.
  rewrite trace_prepend, runs_app. apply Forall_app. split; [constructor|].
  revert w. change (runs_sat commit_verifies
    (Tui.run_command stage_cmd true ;; Tui.run_command tui_commit_cmd true ;; ret tt)).
  unfold Tui.run_command, Tui.console_print. repeat runs_sat_step.
Qed.

(** X7.  The TUI variant makes its initial commit with the hook in
    force: no commit of [create_initial_commit] carries [--no-verify].
    A failing [git add .] raises [CalledProcessError] before any commit
    is attempted, a failing commit raises it as well, and when both go
    through the method returns having run these two commands only. *)
Theorem tui_commit_goes_through_the_hook (w : World) :
  Forall (fun cmd => bypasses_hook cmd = false)
         (commits (trace (Tui.create_initial_commit w))) /\
  (failed (oracle w stage_cmd) ->
   res (Tui.create_initial_commit w) =
     Raise (CalledProcessError stage_cmd (returncode (oracle w stage_cmd))
                               (stderr (oracle w stage_cmd))) /\
   runs (trace (Tui.create_initial_commit w)) = [stage_cmd]) /\
  (returncode (oracle w stage_cmd) = 0 ->
   failed (oracle w tui_commit_cmd) ->
   res (Tui.create_initial_commit w) =
     Raise (CalledProcessError tui_commit_cmd (returncode (oracle w tui_commit_cmd))
                               (stderr (oracle w tui_commit_cmd)))) /\
  (returncode (oracle w stage_cmd) = 0 ->
   returncode (oracle w tui_commit_cmd) = 0 ->
   Tui.create_initial_commit w =
     mkRun (Ok tt) w
           [EvStatus "Creating initial commit...";
            EvRun stage_cmd (oracle w stage_cmd);
            EvRun tui_commit_cmd (oracle w tui_commit_cmd)]).
Proof.
  assert (Tui.create_initial_commit w =
          prepend [EvStatus "Creating initial commit..."]
            ((Full.run_command stage_cmd true ;;
              Full.run_command tui_commit_cmd true ;; ret tt) w)) as Hrun
    by reflexivity.
  assert (external stage_cmd w = (oracle w stage_cmd, w)) as Hstage by reflexivity.
  assert (external tui_commit_cmd w = (oracle w tui_commit_cmd, w)) as Hcommit
    by reflexivity.
  split; [|split; [|split]].
  - assert (Forall (fun cmd => negb (bypasses_hook cmd) = true)
                   (commits (trace (Tui.create_initial_commit w)))) as H.
    { apply (commits_all (fun cmd => negb (bypasses_hook cmd))), tui_commit_runs. }
    eapply Forall_impl; [exact H|]. intros cmd Hcmd. now apply negb_true_iff.
  - intros Hfail. unfold failed in Hfail. apply Z.eqb_neq in Hfail.
    rewrite Hrun, bind_full_run_command, Hstage. cbn [fst snd andb].
    rewrite Hfail. cbn [negb]. split; reflexivity.
  - intros Hok Hfail. unfold failed in Hfail. apply Z.eqb_neq in Hfail.
    rewrite Hrun, bind_full_run_command, Hstage. cbn [fst snd andb].
    rewrite Hok. cbn [Z.eqb negb].
    rewrite bind_full_run_command, Hcommit. cbn [fst snd andb].
    rewrite Hfail. cbn [negb]. reflexivity.
  - intros Hok Hok'.
    rewrite Hrun, bind_full_run_command, Hstage. cbn [fst snd andb].
    rewrite Hok. cbn [Z.eqb negb].
    rewrite bind_full_run_command, Hcommit. cbn [fst snd andb].
    rewrite Hok'. cbn [Z.eqb negb]. reflexivity.
Qed.

Lemma broken_git_cannot_stage : failed (oracle broken_git stage_cmd).
Proof. discriminate. Qed.

Lemma tui_commit_goes_through_the_hook_witness :
  Tui.create_initial_commit fresh_project =
    mkRun (Ok tt) fresh_project
          [EvStatus "Creating initial commit...";
           EvRun stage_cmd cp_ok; EvRun tui_commit_cmd cp_ok] /\
  res (Tui.create_initial_commit broken_git) =
    Raise (CalledProcessError stage_cmd 1 "fatal: unable to access").
Proof.
  exact (conj
    (proj2 (proj2 (proj2 (tui_commit_goes_through_the_hook fresh_project)))
       eq_refl eq_refl)
    (proj1 (proj1 (proj2 (tui_commit_goes_through_the_hook broken_git))
              broken_git_cannot_stage))).
Defined.

(** ** The operator's input ends at the first question *)

(** X8.  In a directory that is not empty the three scripts ask before
    they do anything; when the input is closed at that point they end
    with [EOFError], having run no command and changed nothing. *)
Theorem closed_input_at_first_question (w : World) :
  visible_names (fs w) <> [] ->
  stdin w = [] ->
  Quick.main w =
    mkRun (Raise EOFError) w
          [EvPrint "⚠️  Folder not empty!"; EvInput quick_continue_prompt None] /\
  QuickV2.main w =
    mkRun (Raise EOFError) w
          [EvPrint "⚠️  Folder not empty!"; EvInput quick_continue_prompt None] /\
  forall self language readme explain,
    Full.run self language readme explain w =
      mkRun (Raise EOFError) w
            [EvPrint ("🚀 Initializing project in: " +:+ Full.project_path self);
             EvPrint ("📁 Templates directory: " +:+ Full.templates_dir self +:+ PyStr.nl);
             EvInput full_continue_prompt None].
Proof.
  intros Hvis Hin. split; [|split].
  - unfold Quick.main.
    rewrite bind_visible_entries. cbv beta.
    rewrite (bool_decide_eq_false_2 _ Hvis). cbn [negb].
    rewrite !bind_assoc, bind_print, !bind_assoc, bind_input, Hin. reflexivity.
  - unfold QuickV2.main.
    rewrite bind_visible_entries. cbv beta.
    rewrite (bool_decide_eq_false_2 _ Hvis). cbn [negb].
    rewrite !bind_assoc, bind_print, !bind_assoc, bind_input, Hin. reflexivity.
  - intros self language readme explain. unfold Full.run.
    rewrite bind_print, bind_print. unfold Full.check_empty_folder.
    rewrite bind_assoc, bind_visible_entries, bind_ret. cbv beta.
    destruct (visible_names (fs w)) as [|x l]; [done|]. cbn [List.length Nat.eqb negb].
    rewrite !bind_assoc, bind_input, Hin. reflexivity.
Qed.

Lemma closed_input_at_first_question_witness :
  res (Quick.main unattended) = Raise EOFError /\
  runs (trace (Quick.main unattended)) = [].
Proof.
  rewrite (proj1 (closed_input_at_first_question unattended
                    ltac:(vm_compute; discriminate) eq_refl)).
  split; reflexivity.
Defined.

(** ** The address that is registered *)






(** ** The templates the constructor falls back to *)

Lemma basic_templates_run (w : World) :
  Full._create_basic_templates w =
  mkRun (Ok tt)
    (set_templates
       (<["coderabbit.yaml" := "language: en" +:+ PyStr.nl +:+ "reviews:" +:+ PyStr.nl
                                +:+ "  auto_review: true" +:+ PyStr.nl]>
          (<["gitattributes" := "* text=auto eol=lf" +:+ PyStr.nl]>
             (<["gitignore.python" :=
                  "__pycache__/" +:+ PyStr.nl +:+ "*.py[cod]" +:+ PyStr.nl +:+ ".venv/"
                  +:+ PyStr.nl +:+ "venv/" +:+ PyStr.nl +:+ ".env" +:+ PyStr.nl
                  +:+ ".DS_Store" +:+ PyStr.nl]> (templates w)))) w) [].
Proof. reflexivity. Qed.

Lemma tui_basic_templates :
  Tui._create_basic_templates = Full._create_basic_templates.
Proof. reflexivity. Qed.

(** The basic templates add nothing under another name. *)
Lemma basic_templates_elsewhere (w : World) (name : string) :
  name ∉ basic_names ->
  templates (world (Full._create_basic_templates w)) !! name = templates w !! name.
Proof.
  intros Hname. rewrite basic_templates_run. cbn [world templates set_templates].
  unfold basic_names in Hname. rewrite !elem_of_cons, elem_of_nil in Hname.
  rewrite !lookup_insert_ne; [reflexivity|intros <-; tauto..].
Qed.

Lemma gitignore_name_basic (language : string) :
  language <> "python" -> "gitignore." +:+ language ∉ basic_names.
Proof.
  intros Hlang. unfold basic_names. rewrite !elem_of_cons, elem_of_nil.
  intros [H|[H|[H|[]]]]; cbn in H; try discriminate H.
  injection H as H. now apply Hlang.
Qed.

Lemma generic_not_basic : "gitignore.generic" ∉ basic_names.
Proof.
  unfold basic_names. rewrite !elem_of_cons, elem_of_nil.
  intros [H|[H|[H|[]]]]; discriminate H.
Qed.

(** X10.  The templates the constructors create when the templates
    directory is missing serve python only: with them, and no generic
    template, [create_gitignore] for any other language warns and
    returns without writing [.gitignore] or anything else, in the
    scripted and in the TUI variant. *)
Theorem basic_templates_serve_python_only (w : World) (language : string) :
  language <> "python" ->
  templates w !! ("gitignore." +:+ language) = None ->
  templates w !! "gitignore.generic" = None ->
  Full.create_gitignore language (world (Full._create_basic_templates w)) =
    mkRun (Ok tt) (world (Full._create_basic_templates w))
          [EvPrint ("📝 Creating .gitignore for " +:+ language +:+ "...");
           EvPrint ("⚠️  Template for " +:+ language +:+ " not found, using generic...");
           EvPrint "⚠️  Template not found: gitignore.generic"] /\
  Tui.create_gitignore language (world (Tui._create_basic_templates w)) =
    mkRun (Ok tt) (world (Tui._create_basic_templates w))
          [EvStatus ("Creating .gitignore for " +:+ language +:+ "...");
           EvPrint "⚠️  Template not found: gitignore.generic"].
Proof.
  intros Hlang Hspecific Hgeneric. rewrite tui_basic_templates.
  pose proof (basic_templates_elsewhere w _ (gitignore_name_basic language Hlang)) as H1.
  pose proof (basic_templates_elsewhere w _ generic_not_basic) as H2.
  rewrite Hspecific in H1. rewrite Hgeneric in H2.
  set (w1 := world (Full._create_basic_templates w)) in *.
  split.
  - unfold Full.create_gitignore. rewrite bind_print, bind_template_exists, H1.
    rewrite bool_decide_eq_false_2 by (apply is_Some_None). cbn [negb].
    rewrite !bind_assoc, bind_print, bind_ret.
    unfold Full.copy_template. rewrite bind_template_exists, H2.
    rewrite bool_decide_eq_false_2 by (apply is_Some_None). cbn [negb].
    reflexivity.
  - unfold Tui.create_gitignore, Tui.with_status.
    rewrite bind_template_exists, H1.
    rewrite bool_decide_eq_false_2 by (apply is_Some_None). cbn [negb].
    unfold Tui.copy_template. rewrite bind_template_exists, H2.
    rewrite bool_decide_eq_false_2 by (apply is_Some_None). cbn [negb].
    reflexivity.
Qed.

Lemma basic_templates_serve_python_only_witness :
  fs (world (Full.create_gitignore "rust"
               (world (Full._create_basic_templates fresh_project)))) = ∅.
Proof.
  rewrite (proj1 (basic_templates_serve_python_only fresh_project "rust"
                    ltac:(discriminate) eq_refl eq_refl)).
  reflexivity.
Defined.

(** ** The project directory that is built *)

(** *** Blocks that only print *)







(** *** Steps in a directory where the target is free *)





Lemma external_inert (cmd : list string) (w : World) :
  inert cmd -> external cmd w = (oracle w cmd, w).
Proof. intros H. apply H. Qed.














(** *** The scripted variant *)






Lemma put_not_dir (content : option string) (p q : string) (f : gmap string Node) :
  f !! q <> Some Dir -> put content p f !! q <> Some Dir.
Proof.
  intros Hq. destruct content as [text|]; [|exact Hq]. cbn [put].
  destruct (decide (p = q)) as [->|Hpq].
  - rewrite lookup_insert_eq. discriminate.
  - now rewrite lookup_insert_ne.
Qed.





















(** ** The programs that are run *)

Ltac known_step :=
  first [ apply runs_sat_subprocess_run; first [left; reflexivity | right; reflexivity]
        | runs_sat_step ].

Lemma quick_setup_known : runs_sat git_or_which Quick.setup_remote_and_push.
Proof.
  unfold Quick.setup_remote_and_push, Quick.push_with_retry, Quick.run.
  repeat known_step.
Qed.

Lemma full_setup_known : runs_sat git_or_which Full.setup_remote_and_push.
Proof.
  unfold Full.setup_remote_and_push, Full.push_with_retry, Full.run_command.
  repeat known_step.
Qed.

Lemma quick_main_known : runs_sat git_or_which Quick.main.
Proof.
  pose proof quick_setup_known as Hsetup.
  unfold Quick.main, Quick.load_template, Quick.check_coderabbit,
    Quick.print_install_instructions, Quick.run.
  repeat first [exact Hsetup | known_step].
Qed.

Lemma quick2_main_known : runs_sat git_or_which QuickV2.main.
Proof.
  unfold QuickV2.main, QuickV2.load_template, QuickV2.check_coderabbit,
    QuickV2.print_install_instructions, QuickV2.run.
  repeat known_step.
Qed.

Lemma full_run_known (self : Full.ProjectInitializer) (language : string)
    (readme explain : bool) :
  runs_sat git_or_which (Full.run self language readme explain).
Proof.
  pose proof full_setup_known as Hsetup.
  unfold Full.run, Full.check_empty_folder, Full.init_git, Full.create_gitignore,
    Full.create_git_attributes, Full.setup_coderabbit_cli, Full.setup_precommit_hook,
    Full.create_readme, Full.check_git_config, Full.print_workflow_explanation,
    Full.check_coderabbit_installed, Full.print_coderabbit_install_instructions,
    Full.copy_template, Full.run_command.
  repeat first [exact Hsetup | known_step].
Qed.

(** X15.  The scripts run [git] and [which coderabbit] and no other
    program, in every run: the installer of the review tool and the tool
    itself are named in what is printed and in the hook, never run. *)
Theorem only_git_and_which_are_run :
  (forall w, Forall git_or_which (runs (trace (Quick.main w)))) /\
  (forall w, Forall git_or_which (runs (trace (QuickV2.main w)))) /\
  (forall self language readme explain w,
     Forall git_or_which (runs (trace (Full.run self language readme explain w)))).
Proof.
  split; [|split].
  - exact quick_main_known.
  - exact quick2_main_known.
  - intros self language readme explain. apply full_run_known.
Qed.

(** ** The pushes of a whole run *)

Lemma pushed_of_runs {A} (m : M A) :
  runs_sat not_push m -> forall w, pushed (trace (m w)) = [].
Proof.
  intros H w. specialize (H w). unfold pushed, runs in *.
  induction (trace (m w)) as [|e tr IH]; [reflexivity|].
  cbn [omap list_omap] in *. destruct e as [| | |cmd cp|]; try (now apply IH).
  cbn in H. inversion H as [|? ? Hcmd Htl]; subst.
  rewrite bool_decide_eq_false_2 by exact Hcmd. now apply IH.
Qed.

Section PushesLike.
Variable S : list CompletedProcess -> Prop.
Hypothesis S_nil : S [].

Lemma pushes_like_quiet {A} (m : M A) : runs_sat not_push m -> pushes_like S m.
Proof. intros H w. now rewrite (pushed_of_runs m H). Qed.

Lemma pushes_like_bind_l {A B} (m : M A) (f : A -> M B) :
  runs_sat not_push m -> (forall a, pushes_like S (f a)) -> pushes_like S (bind m f).
Proof.
  intros Hm Hf w. unfold bind. pose proof (pushed_of_runs m Hm w) as Hq.
  destruct (m w) as [[a|e] w1 t1]; cbn [trace] in *.
  - rewrite trace_prepend, pushed_app, Hq. apply Hf.
  - now rewrite Hq.
Qed.

Lemma pushes_like_bind_r {A B} (m : M A) (f : A -> M B) :
  pushes_like S m -> (forall a, runs_sat not_push (f a)) -> pushes_like S (bind m f).
Proof.
  intros Hm Hf w. unfold bind. specialize (Hm w).
  destruct (m w) as [[a|e] w1 t1]; cbn [trace] in *; [|exact Hm].
  rewrite trace_prepend, pushed_app, (pushed_of_runs (f a) (Hf a)).
  now rewrite app_nil_r.
Qed.

End PushesLike.

Ltac quiet_step :=
  first [ apply runs_sat_subprocess_run; discriminate | runs_sat_step ].

Lemma setup_stops_at_success (loop : M unit) (w : World) (r : Run unit) :
  (forall w', retry_shape (loop w')) ->
  setup_shape loop w r ->
  stops_at_success (pushed (trace r)).
Proof.
  intros Hloop [pre w' -> _ Hpre | _ Hnone _].
  - rewrite trace_prepend, pushed_app, Hpre. cbn [app].
    destruct (Hloop w') as [fails ok ? _ Hp Hf _ Hlen _ _
                           | outs final ? ? _ Hp Hlen Hf _ _ _].
    + right. exists fails, ok. now repeat split.
    + right. exists outs, final. repeat split; [exact Hp| |lia].
      apply Forall_app in Hf. apply Hf.
  - left. exact Hnone.
Qed.

Lemma quick_setup_pushes : pushes_like stops_at_success Quick.setup_remote_and_push.
Proof.
  intros w. apply (setup_stops_at_success Quick.push_with_retry w);
    [apply quick_retry_shape|apply quick_setup_shape].
Qed.

Lemma full_setup_pushes : pushes_like stops_at_success Full.setup_remote_and_push.
Proof.
  intros w. apply (setup_stops_at_success Full.push_with_retry w);
    [apply full_retry_shape|apply full_setup_shape].
Qed.

Lemma stops_at_success_nil : stops_at_success [].
Proof. now left. Qed.

Ltac pushes_step Hsetup :=
  first
    [ exact Hsetup
    | apply (pushes_like_quiet _ stops_at_success_nil); solve [repeat quiet_step]
    | apply (pushes_like_bind_l _ stops_at_success_nil);
        [solve [repeat quiet_step]|intros ?]
    | apply (pushes_like_bind_r _);
        [|intros ?; solve [repeat quiet_step]]
    | match goal with
      | |- pushes_like _ (match ?x with _ => _ end) => destruct x
      end ].

Lemma quick_main_pushes : pushes_like stops_at_success Quick.main.
Proof.
  pose proof quick_setup_pushes as Hsetup.
  unfold Quick.main, Quick.load_template, Quick.check_coderabbit,
    Quick.print_install_instructions, Quick.run.
  repeat pushes_step Hsetup.
Qed.

Lemma full_run_pushes (self : Full.ProjectInitializer) (language : string)
    (readme explain : bool) :
  pushes_like stops_at_success (Full.run self language readme explain).
Proof.
  pose proof full_setup_pushes as Hsetup.
  unfold Full.run, Full.check_empty_folder, Full.init_git, Full.create_gitignore,
    Full.create_git_attributes, Full.setup_coderabbit_cli, Full.setup_precommit_hook,
    Full.create_readme, Full.check_git_config, Full.print_workflow_explanation,
    Full.check_coderabbit_installed, Full.print_coderabbit_install_instructions,
    Full.copy_template, Full.run_command.
  repeat pushes_step Hsetup.
Qed.

(** X16.  In every run of the quick script and of the scripted variant,
    from start to end, there are at most four pushes, and none after one
    that went through: all the pushes but the last have failed. *)
Theorem whole_run_pushes_stop_at_success :
  (forall w, stops_at_success (pushed (trace (Quick.main w)))) /\
  (forall self language readme explain w,
     stops_at_success (pushed (trace (Full.run self language readme explain w)))).
Proof.
  split.
  - exact quick_main_pushes.
  - intros self language readme explain. apply full_run_pushes.
Qed.

(** ** Templates without placeholder *)

Lemma substitute_absent (items : Full.dict) (text : string) :
  no_placeholder items text -> Full.substitute items text = text.
Proof.
  unfold no_placeholder. induction items as [|[key value] items IH]; intros H.
  - reflexivity.
  - inversion H as [|? ? Hkey Hrest]; subst. cbn [Full.substitute fst] in *.
    change (PyStr.replace text ("{" +:+ key +:+ "}") value)
      with (PyStr.replace_from (placeholder key) value 0 text).
    rewrite (replace_from_absent _ _ _ Hkey). now apply IH.
Qed.

(** X17.  A template in which no placeholder of the replacement dict
    occurs is copied as it is, whatever the dict holds: [copy_template]
    writes the text of the template, byte for byte. *)
Theorem template_without_placeholder_is_copied
    (items : Full.dict) (text : string) :
  no_placeholder items text ->
  Full.render (Some items) text = text.
Proof.
  intros H. unfold Full.render.
  destruct items as [|item items]; [reflexivity|].
  cbn [Full.dict_truthy default]. now apply substitute_absent.
Qed.

Lemma template_without_placeholder_is_copied_witness :
  Full.render (Some [("PROJECT_NAME", "demo")]) "# My project {name}" =
  "# My project {name}".
Proof.
  apply (template_without_placeholder_is_copied
           [("PROJECT_NAME", "demo")] "# My project {name}").
  repeat constructor.
Defined.

(** ** Entries that do not count *)

Lemma visible_names_spec (f : gmap string Node) (p : string) :
  In p (visible_names f) <->
  is_Some (f !! p) /\ PyStr.contains "/" p = false /\ PyStr.startswith "." p = false.
Proof.
  unfold visible_names. rewrite filter_In, in_map_iff. split.
  - intros [([q n] & <- & Hin) Hp]. cbn [fst] in *.
    apply list_elem_of_In, elem_of_map_to_list in Hin.
    apply andb_true_iff in Hp as [H1 H2].
    apply negb_true_iff in H1. apply negb_true_iff in H2. eauto.
  - intros ([n Hn] & H1 & H2). split.
    + exists (p, n). split; [reflexivity|].
      now apply list_elem_of_In, elem_of_map_to_list.
    + now rewrite H1, H2.
Qed.

(** X18.  What counts as an empty folder: [check_empty_folder] answers
    yes exactly when every entry directly in the project directory has a
    name that starts with a dot, so a directory that holds only [.git] or
    [.env] is set up without a question. *)
Theorem only_visible_entries_count (w : World) :
  Full.check_empty_folder w = mkRun (Ok true) w [] <->
  forall p, is_Some (fs w !! p) -> PyStr.contains "/" p = false ->
            PyStr.startswith "." p = true.
Proof.
  unfold Full.check_empty_folder. rewrite bind_visible_entries. unfold ret.
  split.
  - intros H p Hp Htop.
    destruct (PyStr.startswith "." p) eqn:Hdot; [reflexivity|].
    assert (In p (visible_names (fs w))) as Hin by (now apply visible_names_spec).
    destruct (visible_names (fs w)); [destruct Hin|discriminate H].
  - intros H. destruct (visible_names (fs w)) as [|p l] eqn:Hvis; [reflexivity|].
    assert (In p (visible_names (fs w))) as Hin by (rewrite Hvis; now left).
    apply visible_names_spec in Hin as (Hp & Htop & Hdot).
    rewrite (H p Hp Htop) in Hdot. discriminate Hdot.
Qed.

(** ** Runs from a world that is known in part *)

Section Obeys.
Variable P : World -> Prop.
Variable E : Event -> Prop.

Lemma obeys_quiet {A} (m : M A) : (forall w, trace (m w) = []) -> obeys P E m.
Proof. intros H w _. rewrite H. constructor. Qed.

Lemma obeys_ret {A} (a : A) : obeys P E (ret a).
Proof. now apply obeys_quiet. Qed.

Lemma obeys_raise {A} (e : Exn) : obeys P E (@raise A e).
Proof. now apply obeys_quiet. Qed.

Lemma obeys_sys_exit {A} (code : Z) : obeys P E (@sys_exit A code).
Proof. now apply obeys_quiet. Qed.

Lemma obeys_print (s : string) : E (EvPrint s) -> obeys P E (print s).
Proof. intros H w _. now repeat constructor. Qed.

Lemma obeys_sleep (d : Z) : E (EvSleep d) -> obeys P E (sleep d).
Proof. intros H w _. now repeat constructor. Qed.

Lemma obeys_input (p : string) : (forall a, E (EvInput p a)) -> obeys P E (input p).
Proof.
  intros H w _. unfold input. destruct (stdin w); cbn; now repeat constructor.
Qed.

Lemma obeys_path_exists (p : string) : obeys P E (path_exists p).
Proof. now apply obeys_quiet. Qed.

Lemma obeys_template_exists (p : string) : obeys P E (template_exists p).
Proof. now apply obeys_quiet. Qed.

Lemma obeys_visible_entries : obeys P E visible_entries.
Proof. now apply obeys_quiet. Qed.

Lemma obeys_template_read_text (p : string) : obeys P E (template_read_text p).
Proof.
  apply obeys_quiet. intros w. unfold template_read_text.
  now destruct (templates w !! p).
Qed.

Lemma obeys_write_text (p c : string) : obeys P E (write_text p c).
Proof.
  apply obeys_quiet. intros w. unfold write_text.
  destruct (parent_error p w); [reflexivity|].
  now destruct (fs w !! p) as [[|? ?]|].
Qed.

Lemma obeys_mkdir (p : string) : obeys P E (mkdir_exist_ok p).
Proof.
  apply obeys_quiet. intros w. unfold mkdir_exist_ok.
  destruct (fs w !! p) as [[|? ?]|]; try reflexivity.
  now destruct (parent_error p w).
Qed.

Lemma obeys_chmod (p : string) (mode : Z) : obeys P E (chmod p mode).
Proof.
  apply obeys_quiet. intros w. unfold chmod.
  now destruct (fs w !! p) as [[|? ?]|].
Qed.

Lemma obeys_subprocess_run (cmd : list string) (check : bool) :
  (forall cp, E (EvRun cmd cp)) -> obeys P E (subprocess_run cmd check).
Proof.
  intros H w _. unfold subprocess_run. destruct (external cmd w) as [cp w1].
  destruct (check && negb (returncode cp =? 0))%bool; cbn; now repeat constructor.
Qed.

Lemma obeys_bind {A B} (V : A -> Prop) (m : M A) (f : A -> M B) :
  obeys P E m -> keeps P m -> gives P V m ->
  (forall a, V a -> obeys P E (f a)) ->
  obeys P E (bind m f).
Proof.
  intros Hm Hk Hv Hf w Hw. unfold bind.
  specialize (Hm w Hw). specialize (Hk w Hw). specialize (Hv w).
  destruct (m w) as [[a|e] w1 t1]; cbn in *; [|exact Hm].
  rewrite trace_prepend. apply Forall_app. split; [exact Hm|].
  apply Hf; [now apply Hv|exact Hk].
Qed.

Lemma obeys_bind_any {A B} (m : M A) (f : A -> M B) :
  obeys P E m -> keeps P m -> (forall a, obeys P E (f a)) -> obeys P E (bind m f).
Proof.
  intros Hm Hk Hf. apply (obeys_bind (fun _ => True)); try assumption.
  - now intros w a _ _.
  - intros a _. apply Hf.
Qed.

Lemma obeys_try {A} (m : M A) (h : list string -> Z -> string -> M A) :
  obeys P E m -> keeps P m -> (forall c rc e, obeys P E (h c rc e)) ->
  obeys P E (try_except_cpe m h).
Proof.
  intros Hm Hk Hh w Hw. unfold try_except_cpe.
  specialize (Hm w Hw). specialize (Hk w Hw).
  destruct (m w) as [[a|[]] w1 t1]; cbn in *; try exact Hm.
  rewrite trace_prepend. apply Forall_app. split; [exact Hm|now apply Hh].
Qed.

Lemma obeys_known {A} (m : M A) (a : A) (tr : list Event) :
  (forall w, P w -> m w = mkRun (Ok a) w tr) -> Forall E tr -> obeys P E m.
Proof. intros H Htr w Hw. now rewrite (H w Hw). Qed.

Lemma keeps_known {A} (m : M A) (a : A) (tr : list Event) :
  (forall w, P w -> m w = mkRun (Ok a) w tr) -> keeps P m.
Proof. intros H w Hw. now rewrite (H w Hw). Qed.

Lemma gives_known {A} (m : M A) (a : A) (tr : list Event) :
  (forall w, P w -> m w = mkRun (Ok a) w tr) -> gives P (eq a) m.
Proof. intros H w b Hw. rewrite (H w Hw). cbn. now intros [= <-]. Qed.

(** The same for what a run leaves in force. *)
Lemma keeps_bind_val {A B} (V : A -> Prop) (m : M A) (f : A -> M B) :
  keeps P m -> gives P V m -> (forall a, V a -> keeps P (f a)) -> keeps P (bind m f).
Proof.
  intros Hm Hv Hf w Hw. unfold bind. specialize (Hm w Hw). specialize (Hv w).
  destruct (m w) as [[a|e] w1 t1]; cbn in *; [|exact Hm].
  rewrite world_prepend. apply Hf; [now apply Hv|exact Hm].
Qed.

End Obeys.

Lemma obeys_runs {A} (P : World -> Prop) (E : Event -> Prop)
    (R : list string -> Prop) (m : M A) (w : World) :
  obeys P E m -> P w -> (forall cmd cp, E (EvRun cmd cp) -> R cmd) ->
  Forall R (runs (trace (m w))).
Proof.
  intros Hm Hw HR. specialize (Hm w Hw). unfold runs.
  induction Hm as [|e tr He _ IH]; [constructor|].
  destruct e; cbn; try exact IH. constructor; [now apply (HR _ result)|exact IH].
Qed.

Lemma obeys_inputs {A} (P : World -> Prop) (E : Event -> Prop)
    (Q : string -> Prop) (m : M A) (w : World) :
  obeys P E m -> P w -> (forall p a, E (EvInput p a) -> Q p) ->
  Forall (fun q => Q q.1) (inputs (trace (m w))).
Proof.
  intros Hm Hw HQ. specialize (Hm w Hw). unfold inputs.
  induction Hm as [|e tr He _ IH]; [constructor|].
  destruct e; cbn; try exact IH. constructor; [now apply (HQ _ answer)|exact IH].
Qed.

(** One step of such a proof: [special] comes first, [ktac] shows that a
    part of the script keeps the invariant, [eleaf] settles what the
    events are asked. *)
Ltac obeys_step special ktac eleaf :=
  first
    [ special
    | apply obeys_bind_any; [|solve [ktac]|intros ?]
    | apply obeys_ret | apply obeys_raise | apply obeys_sys_exit
    | apply obeys_print; eleaf | apply obeys_sleep; eleaf
    | apply obeys_input; intros ?; eleaf
    | apply obeys_path_exists | apply obeys_template_exists
    | apply obeys_visible_entries | apply obeys_template_read_text
    | apply obeys_write_text | apply obeys_mkdir | apply obeys_chmod
    | apply obeys_subprocess_run; intros ?; eleaf
    | apply obeys_try; [|solve [ktac]|intros ? ? ?]
    | match goal with
      | |- obeys _ _ (match ?x with _ => _ end) => destruct x
      end ].

(** ** In a directory that is a repository already *)

Lemma has_git_stdin : stdin_blind has_git.
Proof. intros l w H. exact H. Qed.

Lemma has_git_write (p : string) : allows_write has_git p.
Proof.
  intros n w H. unfold has_git in *. cbn [fs set_fs].
  destruct (decide (p = ".git")) as [->|Hne].
  - rewrite lookup_insert_eq. eauto.
  - now rewrite lookup_insert_ne.
Qed.

Lemma has_git_external (cmd : list string) : ext_keeps has_git cmd.
Proof.
  intros w H. unfold external. repeat case_match; cbn [snd]; try exact H.
  all: now apply has_git_write.
Qed.

Ltac has_git_leaf :=
  first [apply has_git_stdin | apply has_git_write | apply has_git_external].

Lemma full_init_git_repo (w : World) :
  has_git w ->
  Full.init_git w =
  mkRun (Ok false) w
        [EvPrint "🔧 Initializing git repository...";
         EvPrint "⚠️  Git already initialized, skipping..."].
Proof.
  intros Hw. unfold Full.init_git.
  rewrite bind_print, bind_path_exists, (bool_decide_eq_true_2 _ Hw).
  now rewrite bind_print.
Qed.

Ltac looks_leaf := first [exact I | reflexivity].

Lemma full_run_repo_obeys (self : Full.ProjectInitializer) (language : string)
    (readme explain : bool) :
  obeys has_git looks_only (Full.run self language readme explain).
Proof.
  unfold Full.run, Full.check_empty_folder, Full.create_gitignore,
    Full.create_git_attributes, Full.setup_coderabbit_cli,
    Full.create_readme, Full.print_workflow_explanation,
    Full.check_coderabbit_installed, Full.print_coderabbit_install_instructions,
    Full.copy_template, Full.run_command.
  repeat obeys_step
    ltac:(idtac;
          match goal with
          | |- obeys _ _ (bind Full.init_git _) =>
              apply (obeys_bind has_git looks_only (eq false));
              [ apply (obeys_known _ _ _ _ _ full_init_git_repo); repeat constructor
              | apply (keeps_known _ _ _ _ full_init_git_repo)
              | apply (gives_known _ _ _ _ full_init_git_repo)
              | intros ? <-; cbv beta iota ]
          end)
    ltac:(repeat keeps_step has_git_leaf) looks_leaf.
Qed.

(** In a repository the scripted variant writes the files it copies and
    nothing else. *)
Lemma repo_kept_write (w0 : World) (p : string) :
  p ∈ copied_paths ->
  allows_write (fun w => has_git w /\ same_outside copied_paths w0 w) p.
Proof.
  intros Hp n w [Hgit Hsame]. split.
  - now apply has_git_write.
  - now apply same_outside_write.
Qed.

Lemma repo_kept_inert (w0 : World) (cmd : list string) :
  inert cmd ->
  ext_keeps (fun w => has_git w /\ same_outside copied_paths w0 w) cmd.
Proof. intros Hcmd w Hw. now rewrite (Hcmd w). Qed.

Ltac repo_leaf :=
  first [ intros ? ? H; exact H
        | apply repo_kept_write; unfold copied_paths; rewrite !elem_of_cons; tauto
        | apply repo_kept_inert; intros ?; reflexivity ].

Lemma full_run_repo_keeps (self : Full.ProjectInitializer) (language : string)
    (readme explain : bool) (w0 : World) :
  keeps (fun w => has_git w /\ same_outside copied_paths w0 w)
        (Full.run self language readme explain).
Proof.
  assert (forall w, has_git w /\ same_outside copied_paths w0 w ->
            Full.init_git w =
            mkRun (Ok false) w
                  [EvPrint "🔧 Initializing git repository...";
                   EvPrint "⚠️  Git already initialized, skipping..."]) as Hinit
    by (intros w [Hw _]; now apply full_init_git_repo).
  unfold Full.run, Full.check_empty_folder, Full.create_gitignore,
    Full.create_git_attributes, Full.setup_coderabbit_cli,
    Full.create_readme, Full.print_workflow_explanation,
    Full.check_coderabbit_installed, Full.print_coderabbit_install_instructions,
    Full.copy_template, Full.run_command.
  repeat first
    [ match goal with
      | |- keeps _ (bind Full.init_git _) =>
          apply (keeps_bind_val _ (eq false));
          [ apply (keeps_known _ _ _ _ Hinit)
          | apply (gives_known _ _ _ _ Hinit)
          | intros ? <-; cbv beta iota ]
      end
    | keeps_step repo_leaf ].
Qed.

(** X19.  In a directory that is a repository already the scripted
    variant does not touch git: [run] runs no command but
    [which coderabbit], asks nothing but whether to go on in a folder
    that is not empty, and changes nothing in the project directory
    outside [.gitignore], [.gitattributes], [.coderabbit.yaml] and
    [README.md]; so it installs no hook and makes no commit. *)
Theorem run_in_a_repository_leaves_git_alone (self : Full.ProjectInitializer)
    (language : string) (readme explain : bool) (w : World) :
  is_Some (fs w !! ".git") ->
  Forall (fun cmd => cmd = which_cmd)
         (runs (trace (Full.run self language readme explain w))) /\
  Forall (fun q => q.1 = full_continue_prompt)
         (inputs (trace (Full.run self language readme explain w))) /\
  forall p, p ∉ copied_paths ->
    fs (world (Full.run self language readme explain w)) !! p = fs w !! p.
Proof.
  intros Hgit. split; [|split].
  - apply (obeys_runs has_git looks_only);
      [apply full_run_repo_obeys|exact Hgit|now intros cmd cp H].
  - apply (obeys_inputs has_git looks_only (fun p => p = full_continue_prompt));
      [apply full_run_repo_obeys|exact Hgit|now intros p a H].
  - intros p Hp.
    destruct (full_run_repo_keeps self language readme explain w w
                (conj Hgit (same_outside_refl _ w))) as [_ [_ Hfs]].
    now apply Hfs.
Qed.

Lemma run_in_a_repository_leaves_git_alone_witness :
  Forall (fun cmd => cmd = which_cmd)
         (runs (trace (Full.run sample_initializer "python" true true old_repository))).
Proof.
  exact (proj1 (run_in_a_repository_leaves_git_alone sample_initializer "python"
                  true true old_repository ltac:(eexists; reflexivity))).
Defined.

(** ** Without a git user *)

Lemma oracle_kept_external (orc : list string -> CompletedProcess) (cmd : list string) :
  ext_keeps (oracle_is orc) cmd.
Proof. intros w H. unfold external. repeat case_match; exact H. Qed.

Ltac oracle_leaf :=
  first [ intros ? ? H; exact H | apply oracle_kept_external ].

Ltac oracle_keeps :=
  try unfold Quick.setup_remote_and_push, Quick.push_with_retry;
  try unfold Full.setup_remote_and_push, Full.push_with_retry;
  try unfold Full.check_git_config;
  try unfold Full.init_git, Full.setup_precommit_hook;
  try unfold Full.copy_template;
  try unfold Full.run_command;
  try unfold Quick.run;
  repeat keeps_step oracle_leaf.

Ltac before_leaf :=
  first [ exact I
        | solve [repeat constructor]
        | left; reflexivity | right; reflexivity ].

Lemma quick_run_gives (orc : list string -> CompletedProcess) (cmd : list string) :
  inert cmd -> gives (oracle_is orc) (eq (orc cmd)) (Quick.run cmd false).
Proof.
  intros Hcmd w a Hw. unfold Quick.run, bind, subprocess_run.
  rewrite (Hcmd w). cbn. intros [= <-]. now rewrite Hw.
Qed.

Lemma full_check_git_config_gives (orc : list string -> CompletedProcess) :
  gives (oracle_is orc)
        (eq (returncode (orc name_cmd) =? 0, returncode (orc email_cmd) =? 0))
        Full.check_git_config.
Proof.
  intros w a Hw. unfold Full.check_git_config.
  rewrite bind_full_run_command.
  rewrite (external_inert name_cmd) by (intros ?; reflexivity). cbn [fst snd andb].
  rewrite bind_full_run_command.
  rewrite (external_inert email_cmd) by (intros ?; reflexivity). cbn [fst snd andb].
  rewrite !res_prepend. cbn. intros [= <-]. now rewrite Hw.
Qed.

Section Anonymous.
Variable orc : list string -> CompletedProcess.
Hypothesis Hanon :
  ((returncode (orc name_cmd) =? 0) && (returncode (orc email_cmd) =? 0))%bool = false.

Lemma anonymous_or :
  (negb (returncode (orc name_cmd) =? 0) || negb (returncode (orc email_cmd) =? 0))%bool
  = true.
Proof. rewrite <- negb_andb, Hanon. reflexivity. Qed.

Ltac quick_special :=
  idtac;
  match goal with
  | |- obeys _ _ (bind (bind (subprocess_run ["git"; "config"; "user.name"] false) _) _) =>
      apply (obeys_bind (oracle_is orc) before_commit (eq (orc name_cmd))
               (Quick.run name_cmd false));
      [ unfold Quick.run | oracle_keeps
      | apply quick_run_gives; intros ?; reflexivity
      | intros ? <- ]
  | |- obeys _ _ (bind (bind (subprocess_run ["git"; "config"; "user.email"] false) _) _) =>
      apply (obeys_bind (oracle_is orc) before_commit (eq (orc email_cmd))
               (Quick.run email_cmd false));
      [ unfold Quick.run | oracle_keeps
      | apply quick_run_gives; intros ?; reflexivity
      | intros ? <-; rewrite Hanon; cbv beta iota ]
  end.

Lemma quick_main_anonymous : obeys (oracle_is orc) before_commit Quick.main.
Proof.
  unfold Quick.main, Quick.load_template, Quick.check_coderabbit,
    Quick.print_install_instructions, Quick.run.
  repeat obeys_step quick_special oracle_keeps before_leaf.
Qed.

Lemma quick2_main_anonymous : obeys (oracle_is orc) before_commit QuickV2.main.
Proof.
  unfold QuickV2.main, QuickV2.load_template, QuickV2.check_coderabbit,
    QuickV2.print_install_instructions, QuickV2.run.
  repeat obeys_step quick_special oracle_keeps before_leaf.
Qed.

Ltac full_special :=
  idtac;
  match goal with
  | |- obeys _ _ (bind Full.check_git_config _) =>
      apply (obeys_bind (oracle_is orc) before_commit
               (eq (returncode (orc name_cmd) =? 0, returncode (orc email_cmd) =? 0)));
      [ unfold Full.check_git_config, Full.run_command | oracle_keeps
      | apply full_check_git_config_gives
      | intros ? <-; cbv beta iota; rewrite anonymous_or; cbv beta iota ]
  end.

Lemma full_run_anonymous (self : Full.ProjectInitializer) (language : string)
    (readme explain : bool) :
  obeys (oracle_is orc) before_commit (Full.run self language readme explain).
Proof.
  unfold Full.run, Full.check_empty_folder, Full.init_git, Full.create_gitignore,
    Full.create_git_attributes, Full.setup_coderabbit_cli, Full.setup_precommit_hook,
    Full.create_readme, Full.print_workflow_explanation,
    Full.check_coderabbit_installed, Full.print_coderabbit_install_instructions,
    Full.copy_template.
  repeat obeys_step full_special oracle_keeps
    ltac:(first [before_leaf | unfold Full.run_command]).
Qed.

End Anonymous.

Lemma anonymous_andb (orc : list string -> CompletedProcess) :
  failed (orc name_cmd) \/ failed (orc email_cmd) ->
  ((returncode (orc name_cmd) =? 0) && (returncode (orc email_cmd) =? 0))%bool = false.
Proof.
  unfold failed. intros [H|H]; apply Z.eqb_neq in H; rewrite H;
    [reflexivity|apply andb_false_r].
Qed.

Lemma before_commit_runs {A} (m : M A) (w : World) :
  obeys (oracle_is (oracle w)) before_commit m ->
  Forall (fun cmd => cmd ∈ setup_commands) (runs (trace (m w))) /\
  Forall (fun q => q.1 = quick_continue_prompt \/ q.1 = full_continue_prompt)
         (inputs (trace (m w))).
Proof.
  intros Hm. split.
  - apply (obeys_runs _ _ _ m w Hm eq_refl). now intros cmd cp H.
  - apply (obeys_inputs _ _ (fun p => p = quick_continue_prompt \/
                                     p = full_continue_prompt) m w Hm eq_refl).
    now intros p a H.
Qed.

(** X20.  Without a git user nothing is committed and the remote is not
    brought up: when [git config user.name] or [git config user.email]
    fails, every command that the quick script, its second version and
    the scripted variant run is one of [git init], [git branch -M main],
    [which coderabbit] and the two [git config] queries, so there is no
    [git add], no commit, no [git remote] and no push, and the only
    question the operator can be asked is whether to go on in a folder
    that is not empty. *)
Theorem without_identity_nothing_is_committed (w : World) :
  failed (oracle w name_cmd) \/ failed (oracle w email_cmd) ->
  (Forall (fun cmd => cmd ∈ setup_commands) (runs (trace (Quick.main w))) /\
   Forall (fun q => q.1 = quick_continue_prompt \/ q.1 = full_continue_prompt)
          (inputs (trace (Quick.main w)))) /\
  (Forall (fun cmd => cmd ∈ setup_commands) (runs (trace (QuickV2.main w))) /\
   Forall (fun q => q.1 = quick_continue_prompt \/ q.1 = full_continue_prompt)
          (inputs (trace (QuickV2.main w)))) /\
  forall self language readme explain,
    Forall (fun cmd => cmd ∈ setup_commands)
           (runs (trace (Full.run self language readme explain w))) /\
    Forall (fun q => q.1 = quick_continue_prompt \/ q.1 = full_continue_prompt)
           (inputs (trace (Full.run self language readme explain w))).
Proof.
  intros Hanon. apply anonymous_andb in Hanon.
  split; [|split].
  - apply before_commit_runs, quick_main_anonymous, Hanon.
  - apply before_commit_runs, quick2_main_anonymous, Hanon.
  - intros self language readme explain.
    apply before_commit_runs, full_run_anonymous, Hanon.
Qed.

Lemma anonymous_has_no_name : failed (oracle anonymous name_cmd).
Proof. discriminate. Qed.

Lemma without_identity_nothing_is_committed_witness :
  Forall (fun cmd => cmd ∈ setup_commands) (runs (trace (Quick.main anonymous))).
Proof.
  exact (proj1 (proj1 (without_identity_nothing_is_committed anonymous
                         (or_introl anonymous_has_no_name)))).
Defined.

(** ** The methods of the TUI variant *)



